(** * ConanConfig: a shallow embedding of [setup_conan.py]

    The script generates Conan profiles for every permutation of the
    OS/architecture variants, compiler variants and build types of one host
    platform, and registers one remote with the Conan client.

    Modelling choices.
    - A Python [dict] from strings to strings whose iteration order is
      observable (the settings and environment mappings, which are rendered
      line by line) is an association list in insertion order.
    - The module-level tables [HOST_SETTINGS] and [BUILD_TYPES] are mutable
      objects: the loop of [Main] writes into the settings dictionaries they
      hold.  They are kept in the program state, and an entry is referred to
      by its position in its list, never by a copy of its value.
    - The profiles directory is a finite map from file name to text: the
      path [os.path.join(profiles_path, name)] is identified with [name], the
      names of the tables having no path separator.  The registry of the
      client is the list that [remote_list] returns, to which [remote_add]
      appends.  The effects of a run are appended to a trace in the order in
      which they happen.
    - [argparse] is modelled for the parser that [Main] builds and for
      command lines made of the words [-p], [--platform], [-h], [--help]
      and of words that do not start with [-]; what the parser itself
      prints is not in the trace.  File-system and client calls are assumed
      to succeed. *)

From Stdlib Require Import Ascii.
From stdpp Require Import base option strings list gmap.

(** ** Python dictionaries with observable order *)

Abbreviation dict := (list (string * string)).

(** [d.get(k)] *)
Fixpoint dict_get (k : string) (d : dict) : option string :=
  match d with
  | [] => None
  | (k', v) :: d' => if decide (k = k') then Some v else dict_get k d'
  end.

(** [d.get(k, dflt)] *)
Definition dict_get_default (k dflt : string) (d : dict) : string :=
  default dflt (dict_get k d).

(** [d[k] = v]: an existing key keeps its position, a new key goes last. *)
Fixpoint dict_setitem (k v : string) (d : dict) : dict :=
  match d with
  | [] => [(k, v)]
  | (k', v') :: d' =>
      if decide (k = k') then (k, v) :: d' else (k', v') :: dict_setitem k v d'
  end.

(** [d.update(e)]: the items of [e] are stored into [d] in the order of [e]. *)
Definition dict_update (d e : dict) : dict :=
  foldl (fun acc kv => dict_setitem kv.1 kv.2 acc) d e.

Definition keys (d : dict) : list string := d.*1.

(** ** The static tables *)

(** One element of an [os_arch], [compilers] or [BUILD_TYPES] list.  The
    source reads ['name'] by subscript and ['settings'] and ['env'] through
    [get] with a default, so the latter two may be absent. *)
Record entry : Type := Entry {
  name : string;
  settings : option dict;
  env : option dict
}.

Record platform : Type := Platform {
  os_arch : list entry;
  compilers : list entry
}.

Definition REMOTE : string := "artyjay".
Definition REMOTE_URL : string :=
  "https://artyjay.jfrog.io/artifactory/api/conan/conan-local".

Definition CONAN_PROFILE_TEMPLATE : string := "[settings]
{settings}
[options]
[build_requires]
[env]
{env}
".

Definition linux_x86_64 : entry :=
  Entry "linux-x86_64"
    (Some [("os", "Linux"); ("os_build", "Linux");
           ("arch", "x86_64"); ("arch_build", "x86_64")])
    None.

Definition clang : entry :=
  Entry "clang"
    (Some [("compiler", "clang"); ("compiler.version", "11");
           ("compiler.libcxx", "libstdc++11")])
    (Some [("CC", "clang-11"); ("CXX", "clang-11"); ("AR", "llvm-ar-11");
           ("NM", "llvm-nm-11"); ("LD", "llvm-link-11");
           ("STRIP", "llvm-strip-11")]).

Definition gcc : entry :=
  Entry "gcc"
    (Some [("compiler", "gcc"); ("compiler.version", "10");
           ("compiler.libcxx", "libstdc++11")])
    (Some [("CC", "gcc-10"); ("CXX", "g++-10"); ("AR", "gcc-ar-10");
           ("NM", "gcc-nm-10")]).

Definition windows_x86_64 : entry :=
  Entry "windows-x86_64"
    (Some [("os", "Windows"); ("os_build", "Windows");
           ("arch", "x86_64"); ("arch_build", "x86_64")])
    None.

Definition msvc_mt : entry :=
  Entry "msvc_mt"
    (Some [("compiler", "Visual Studio"); ("compiler.version", "16");
           ("compiler.runtime", "MT")])
    None.

Definition Linux : platform := Platform [linux_x86_64] [clang; gcc].
Definition Windows : platform := Platform [windows_x86_64] [msvc_mt].

Definition HOST_SETTINGS : gmap string platform :=
  <["Linux" := Linux]> (<["Windows" := Windows]> ∅).

Definition debug : entry :=
  Entry "debug" (Some [("build_type", "Debug")]) None.
Definition release : entry :=
  Entry "release" (Some [("build_type", "Release")]) None.

Definition BUILD_TYPES : list entry := [debug; release].

(** ** Program state and effects *)

Record remote : Type := Remote {
  remote_name : string;
  remote_url : string
}.

(** What a run does to the outside world, in order. *)
Inductive event : Type :=
  | Print (line : string)
  | MakeDirs (path : string)
  | ConanFactory
  | ConanCreateApp
  | ConanRemoteList
  | ConanRemoteAdd (remote_name url : string)
  | WriteFile (file text : string).

(** The exceptions of the model.  [KeyError] is the failed subscript of
    [HOST_SETTINGS] or a missing field of [str.format], [ValueError] an
    unbalanced brace in a format string, [OSError] a write into a directory
    that does not exist.  [DanglingRef] is a position outside its list: a
    Python reference cannot dangle, and [Main] never raises it.
    [SystemExit] is what [sys.exit(status)] raises: the argument parser
    leaves the program with it. *)
Inductive exn : Type :=
  | KeyError (key : option string)
  | ValueError
  | OSError
  | DanglingRef
  | SystemExit (status : nat).

Inductive result (A : Type) : Type :=
  | Ok (a : A)
  | Raise (e : exn).
Arguments Ok {A} a.
Arguments Raise {A} e.

Record state : Type := State {
  host_settings : gmap string platform;    (* the global HOST_SETTINGS *)
  build_types : list entry;                (* the global BUILD_TYPES *)
  profiles_path : string;                  (* ~/.conan/profiles *)
  profiles : option (gmap string string);  (* that directory: [None] if absent *)
  remotes : list remote;                   (* the client's remotes *)
  trace : list event
}.

(** State and exception monad: an exception keeps the state reached. *)
Definition M (A : Type) : Type := state → result A * state.

#[global] Instance M_ret : MRet M := λ A a st, (Ok a, st).
#[global] Instance M_bind : MBind M := λ A B f m st,
  match m st with
  | (Ok a, st') => f a st'
  | (Raise e, st') => (Raise e, st')
  end.

Definition raise {A} (e : exn) : M A := λ st, (Raise e, st).
Definition gets {A} (f : state → A) : M A := λ st, (Ok (f st), st).
Definition modify (f : state → state) : M unit := λ st, (Ok tt, f st).

Definition emit (ev : event) : M unit :=
  modify (λ st, State (host_settings st) (build_types st) (profiles_path st)
                      (profiles st) (remotes st) (trace st ++ [ev])).

Definition print (line : string) : M unit := emit (Print line).

(** [for x in l: body(x)], keeping what each iteration computed. *)
Fixpoint for_each {A B} (l : list A) (body : A → M B) : M (list B) :=
  match l with
  | [] => mret []
  | x :: l' => y ← body x; ys ← for_each l' body; mret (y :: ys)
  end.

(** [for x in l: acc = step(acc, x)] *)
Fixpoint fold_each {A B} (step : B → A → M B) (acc : B) (l : list A) : M B :=
  match l with
  | [] => mret acc
  | x :: l' => acc' ← step acc x; fold_each step acc' l'
  end.

(** *** File system *)

(** [os.makedirs(profiles_path, exist_ok=True)] *)
Definition makedirs : M unit :=
  path ← gets profiles_path;
  emit (MakeDirs path);;
  modify (λ st, State (host_settings st) (build_types st) (profiles_path st)
                      (Some (default ∅ (profiles st))) (remotes st) (trace st)).

Definition files (st : state) : gmap string string := default ∅ (profiles st).

(** [os.path.exists(os.path.join(profiles_path, file))] *)
Definition path_exists (file : string) : M bool :=
  gets (λ st, bool_decide (is_Some (files st !! file))).

(** [with open(os.path.join(profiles_path, file), 'wt') as f: f.write(text)] *)
Definition write_file (file text : string) : M unit :=
  dir ← gets profiles;
  match dir with
  | None => raise OSError
  | Some fs =>
      emit (WriteFile file text);;
      modify (λ st, State (host_settings st) (build_types st) (profiles_path st)
                          (Some (<[file := text]> fs)) (remotes st) (trace st))
  end.

(** *** The Conan client *)

Definition conan_factory : M unit := emit ConanFactory.
Definition conan_create_app : M unit := emit ConanCreateApp.

Definition conan_remote_list : M (list remote) :=
  emit ConanRemoteList;; gets remotes.

Definition conan_remote_add (remote_name url : string) : M unit :=
  emit (ConanRemoteAdd remote_name url);;
  modify (λ st, State (host_settings st) (build_types st) (profiles_path st)
                      (profiles st) (remotes st ++ [Remote remote_name url])
                      (trace st)).

(** *** References into the tables *)

Inductive pool : Type := OsArch | Compilers | BuildTypes.

#[global] Instance pool_eq_dec : EqDecision pool.
Proof. solve_decision. Defined.

(** An entry object: the list that holds it and its position there.  The
    lists of the platform are reached through the key of the platform. *)
Definition ref : Type := pool * nat.

Definition pool_list (host : string) (p : pool) (st : state) : list entry :=
  match p with
  | OsArch => default [] (os_arch <$> host_settings st !! host)
  | Compilers => default [] (compilers <$> host_settings st !! host)
  | BuildTypes => build_types st
  end.

Definition deref (host : string) (r : ref) : M entry := λ st,
  match pool_list host r.1 st !! r.2 with
  | Some e => (Ok e, st)
  | None => (Raise DanglingRef, st)
  end.

Definition with_settings (s : dict) (e : entry) : entry :=
  Entry (name e) (Some s) (env e).

(** The entry at [r] becomes [f] of itself, for every holder of a reference
    to it. *)
Definition update_entry (host : string) (r : ref) (f : entry → entry)
    (st : state) : state :=
  match r.1 with
  | OsArch =>
      State (alter (λ pl, Platform (alter f r.2 (os_arch pl)) (compilers pl))
                   host (host_settings st))
            (build_types st) (profiles_path st) (profiles st) (remotes st)
            (trace st)
  | Compilers =>
      State (alter (λ pl, Platform (os_arch pl) (alter f r.2 (compilers pl)))
                   host (host_settings st))
            (build_types st) (profiles_path st) (profiles st) (remotes st)
            (trace st)
  | BuildTypes =>
      State (host_settings st) (alter f r.2 (build_types st))
            (profiles_path st) (profiles st) (remotes st) (trace st)
  end.

(** [entry['settings'][k] = v] seen from the table: the settings dictionary
    of the entry at [r] is now [s]. *)
Definition store_settings (host : string) (r : ref) (s : dict) : M unit :=
  modify (update_entry host r (with_settings s)).

(** ** The program *)

Definition newline : string := String "010"%char "".

(** ['\n'.join(map(lambda kv: f'{kv[0]}={kv[1]}', entry_dict.items()))] *)
Definition values_string (entry_dict : dict) : string :=
  String.concat newline (map (λ kv, kv.1 +:+ "=" +:+ kv.2) entry_dict).

(** [template.format(name=value, ...)] for a template of literal text and
    replacement fields [{name}].  [field] is the name read so far while
    inside braces. *)
Fixpoint format_from (kwargs : dict) (field : option string) (template : string)
  : result string :=
  match template with
  | "" => match field with None => Ok "" | Some _ => Raise ValueError end
  | String c rest =>
      match field with
      | None =>
          if decide (c = "{"%char) then format_from kwargs (Some "") rest
          else if decide (c = "}"%char) then Raise ValueError
          else match format_from kwargs None rest with
               | Ok s => Ok (String c s)
               | Raise e => Raise e
               end
      | Some f =>
          if decide (c = "}"%char) then
            match dict_get f kwargs with
            | None => Raise (KeyError (Some f))
            | Some v =>
                match format_from kwargs None rest with
                | Ok s => Ok (v +:+ s)
                | Raise e => Raise e
                end
            end
          else format_from kwargs (Some (f +:+ String c "")) rest
      end
  end.

Definition format (template : string) (kwargs : dict) : M string := λ st,
  (format_from kwargs None template, st).

(** Lines 172 to 174: the value stored under ['compiler.runtime']. *)
Definition runtime_value (compiler_name build_name : string) : string :=
  let runtime := if decide (compiler_name = "msvc_mt") then "MT" else "MD" in
  let debug_suffix := if decide (build_name = "debug") then "d" else "" in
  runtime +:+ debug_suffix.

(** Lines 166 to 178: one round of [for entry in profile].  [acc] is the
    pair of [profile_settings] and [profile_env]. *)
Definition merge_entry (host compiler_name build_name : string)
    (acc : dict * dict) (r : ref) : M (dict * dict) :=
  entry ← deref host r;
  entry_settings ←
    match settings entry with
    | None => mret []
    | Some s =>
        if decide (dict_get_default "compiler" "" s = "Visual Studio") then
          let s' := dict_setitem "compiler.runtime"
                      (runtime_value compiler_name build_name) s in
          store_settings host r s';; mret s'
        else mret s
    end;
  let entry_env := default [] (env entry) in
  mret (dict_update acc.1 entry_settings, dict_update acc.2 entry_env).

(** What one iteration of the main loop computed. *)
Record rendered : Type := Rendered {
  profile_name : string;
  profile_settings : dict;
  profile_env : dict;
  profile_text : string
}.

(** Lines 154 to 197: the body of the main loop.  [profile] holds the
    positions of the three entries of the permutation. *)
Definition generate_profile (host : string) (profile : nat * nat * nat)
  : M rendered :=
  let '(i, j, k) := profile in
  os_arch ← deref host (OsArch, i);
  compiler ← deref host (Compilers, j);
  build ← deref host (BuildTypes, k);
  let os_arch_name := name os_arch in
  let compiler_name := name compiler in
  let build_name := name build in
  acc ← fold_each (merge_entry host compiler_name build_name) ([], [])
        [(OsArch, i); (Compilers, j); (BuildTypes, k)];
  let profile_name := os_arch_name +:+ "-" +:+ compiler_name +:+ "-" +:+ build_name in
  let profile_settings_str := values_string acc.1 in
  let profile_env_str := values_string acc.2 in
  text ← format CONAN_PROFILE_TEMPLATE
           [("settings", profile_settings_str); ("env", profile_env_str)];
  present ← path_exists profile_name;
  (if negb present then
     print ("Generating profile " +:+ profile_name);;
     write_file profile_name text
   else
     print ("Skipping profile generation for " +:+ profile_name +:+
            " as profile already exists"));;
  mret (Rendered profile_name acc.1 acc.2 text).

(** [itertools.product(a, b, c)]: the last component varies fastest. *)
Definition product {A B C} (a : list A) (b : list B) (c : list C)
  : list (A * B * C) :=
  x ← a; y ← b; z ← c; [(x, y, z)].

(** Lines 143 to 150. *)
Definition register_remote : M unit :=
  remotes ← conan_remote_list;
  let found := filter (λ x, remote_name x = REMOTE) remotes in
  if decide (length found = 0) then
    print ("Adding remote - " +:+ REMOTE +:+ " -> " +:+ REMOTE_URL);;
    conan_remote_add REMOTE REMOTE_URL
  else
    print ("Not adding remote " +:+ REMOTE +:+ " as it is already registered").

(** [HOST_SETTINGS[host_platform]]; the result stands for the platform
    object held by the table under that key. *)
Definition lookup_platform (host_platform : option string) : M string := λ st,
  match host_platform with
  | Some key =>
      if decide (is_Some (host_settings st !! key)) then (Ok key, st)
      else (Raise (KeyError host_platform), st)
  | None => (Raise (KeyError None), st)
  end.

(** *** The command line *)

(** A word of [sys.argv[1:]] as the parser of lines 119 to 124 sees it.  The
    parser has the option [-p] / [--platform], which takes one value and is
    not declared [required], and the option [-h] / [--help] that [argparse]
    adds to every parser; it has no positional argument.  A plain word is
    one that does not start with [-]. *)
Inductive word : Type :=
  | PlatformOption
  | HelpOption
  | Plain (text : string).

(** The word that a string of the command line is.  The other spellings
    that start with [-] (an option glued to its value as in [-pLinux] or
    [--platform=Linux], an abbreviation such as [--plat], an unknown
    option, [--], [-]) are left out of the model. *)
Definition word_of (s : string) : option word :=
  if decide (s = "-p" ∨ s = "--platform") then Some PlatformOption
  else if decide (s = "-h" ∨ s = "--help") then Some HelpOption
  else match s with
       | String "-" _ => None
       | _ => Some (Plain s)
       end.

Definition command_line (sys_argv : list string) : option (list word) :=
  mapM word_of sys_argv.

(** [parser.parse_known_args()]: the words are taken from left to right.
    [--help] prints the help and leaves with status 0.  [--platform] needs
    a plain word after it, which becomes [args.platform], a later one
    replacing an earlier one; without it the parser reports an error and
    leaves with status 2.  A plain word that is the value of no option is
    set aside in [extras]. *)
Fixpoint parse_known_args (platform : option string) (extras : list string)
    (args : list word) : result (option string * list string) :=
  match args with
  | [] => Ok (platform, extras)
  | HelpOption :: _ => Raise (SystemExit 0)
  | PlatformOption :: Plain value :: args' =>
      parse_known_args (Some value) extras args'
  | PlatformOption :: _ => Raise (SystemExit 2)
  | Plain text :: args' => parse_known_args platform (extras ++ [text]) args'
  end.

(** Line 125, [args = parser.parse_args()], read at [args.platform]: [None]
    when the command line has no [--platform].  Words set aside are an
    error, with status 2. *)
Definition parse_args (args : list word) : result (option string) :=
  match parse_known_args None [] args with
  | Ok (platform, []) => Ok platform
  | Ok (_, _ :: _) => Raise (SystemExit 2)
  | Raise e => Raise e
  end.

Definition of_result {A} (r : result A) : M A := λ st, (r, st).

(** [f'{host_platform}'] *)
Definition str (host_platform : option string) : string :=
  default "None" host_platform.

(** Lines 127 to 150, up to the registration of the remote.
    [host_platform] is [args.platform]: [None] when the command line has no
    [-p] / [--platform].  The result is the key under which the table holds
    the platform whose lists the locals [os_arch_types] and [compiler_types]
    refer to. *)
Definition prepare (host_platform : option string) : M string :=
  print ("Setup Conan for " +:+ str host_platform);;
  profiles_path ← gets profiles_path;
  print ("Conan profiles folder " +:+ profiles_path);;
  makedirs;;
  host ← lookup_platform host_platform;
  conan_factory;;
  conan_create_app;;
  register_remote;;
  mret host.

(** Lines 153 to 197: the main loop. *)
Definition generate_profiles (host : string) : M (list rendered) :=
  os_arch_types ← gets (pool_list host OsArch);
  compiler_types ← gets (pool_list host Compilers);
  build_types ← gets (pool_list host BuildTypes);
  for_each (product (seq 0 (length os_arch_types))
                    (seq 0 (length compiler_types))
                    (seq 0 (length build_types)))
           (generate_profile host).

(** [Main], keeping what its loop computed. *)
Definition profiles_of (host_platform : option string) : M (list rendered) :=
  host ← prepare host_platform;
  generate_profiles host.

Definition Main (host_platform : option string) : M unit :=
  profiles_of host_platform;; mret tt.

(** [Main] from its first line: the command line is parsed, and lines 127
    to 197 run with the platform that the parser returns. *)
Definition script (args : list word) : M unit :=
  host_platform ← of_result (parse_args args);
  Main host_platform.

(** [sys.exit(Main())]: status 0 when [Main] returns, the status of a
    [SystemExit] that escapes, 1 when another exception escapes. *)
Definition exit_status {A} (r : result A) : nat :=
  match r with
  | Ok _ => 0
  | Raise (SystemExit status) => status
  | Raise _ => 1
  end.

(** A fresh process: the tables as the source has them, an empty trace. *)
Definition boot (path : string) (dir : option (gmap string string))
    (registry : list remote) : state :=
  State HOST_SETTINGS BUILD_TYPES path dir registry [].

(** ** Vocabulary of the statements *)

(** *** Entries and the special case for Visual Studio *)

(** [entry.get('settings', {})] and [entry.get('env', {})] *)
Definition settings_of (e : entry) : dict := default [] (settings e).

Definition env_of (e : entry) : dict := default [] (env e).

(** The test of line 171. *)
Definition visual_studio (e : entry) : Prop :=
  dict_get_default "compiler" "" (settings_of e) = "Visual Studio".

#[global] Instance visual_studio_dec e : Decision (visual_studio e).
Proof. unfold visual_studio. apply _. Defined.

(** Lines 171 to 175 seen from the entry: the entry they leave behind. *)
Definition with_runtime (compiler_name build_name : string) (e : entry) : entry :=
  match settings e with
  | None => e
  | Some s =>
      if decide (dict_get_default "compiler" "" s = "Visual Studio") then
        with_settings (dict_setitem "compiler.runtime"
                         (runtime_value compiler_name build_name) s) e
      else e
  end.

Definition unique_keys (e : entry) : Prop :=
  NoDup (keys (settings_of e)) ∧ NoDup (keys (env_of e)).

#[global] Instance unique_keys_dec e : Decision (unique_keys e).
Proof. unfold unique_keys. apply _. Defined.

(** *** Merging and rendering *)

(** [d1], then [d2], then [d3] stored into an empty dictionary. *)
Definition merge3 (d1 d2 d3 : dict) : dict :=
  dict_update (dict_update (dict_update [] d1) d2) d3.

(** The items of [d] with the values that [e] gives to their keys. *)
Definition overridden (e d : dict) : dict :=
  (λ kv, (kv.1, default kv.2 (dict_get kv.1 e))) <$> d.

(** [d] with the values of [e] on the keys they share, followed by the items
    of [e] under new keys: the union of [d] and [e] in which [e] wins. *)
Definition override (d e : dict) : dict :=
  ((λ kv, (kv.1, default kv.2 (dict_get kv.1 e))) <$> d) ++
  filter (λ kv, kv.1 ∉ keys d) e.

(** The lines of a settings or environment block, written out: one
    [key=value] per item, a newline between two lines and none at the end. *)
Fixpoint key_value_lines (d : dict) : string :=
  match d with
  | [] => ""
  | (k, v) :: d' =>
      match d' with
      | [] => k +:+ "=" +:+ v
      | _ :: _ => (k +:+ "=" +:+ v) +:+ newline +:+ key_value_lines d'
      end
  end.

Definition profile_template (settings_str env_str : string) : string :=
  "[settings]" +:+ newline +:+ settings_str +:+ newline +:+
  "[options]" +:+ newline +:+
  "[build_requires]" +:+ newline +:+
  "[env]" +:+ newline +:+ env_str +:+ newline.

Definition combination_name (o c b : entry) : string :=
  name o +:+ "-" +:+ name c +:+ "-" +:+ name b.

Definition render (o c b : entry) : rendered :=
  let fix_up := with_runtime (name c) (name b) in
  let ps := merge3 (settings_of (fix_up o)) (settings_of (fix_up c))
                   (settings_of (fix_up b)) in
  let pe := merge3 (env_of o) (env_of c) (env_of b) in
  Rendered (combination_name o c b) ps pe
           (profile_template (values_string ps) (values_string pe)).

Definition render3 (c : entry * entry * entry) : rendered :=
  render c.1.1 c.1.2 c.2.

(** The entries at the positions [t] of the lists of [pl] and of [bs]. *)
Definition combination (pl : platform) (bs : list entry) (t : nat * nat * nat)
  : option (entry * entry * entry) :=
  o ← os_arch pl !! t.1.1; c ← compilers pl !! t.1.2; b ← bs !! t.2;
  Some (o, c, b).

Definition state_combination (host : string) (st : state) (t : nat * nat * nat)
  : option (entry * entry * entry) :=
  o ← pool_list host OsArch st !! t.1.1;
  c ← pool_list host Compilers st !! t.1.2;
  b ← pool_list host BuildTypes st !! t.2;
  Some (o, c, b).

(** *** What a run does to the directory, the client and the trace *)

(** What the loop does to the profiles directory and to the trace for one
    rendered profile. *)
Definition write_if_absent (fs : gmap string string) (r : rendered)
  : gmap string string :=
  if decide (is_Some (fs !! profile_name r)) then fs
  else <[profile_name r := profile_text r]> fs.

Definition profile_events (fs : gmap string string) (r : rendered) : list event :=
  if decide (is_Some (fs !! profile_name r)) then
    [Print ("Skipping profile generation for " +:+ profile_name r +:+
            " as profile already exists")]
  else
    [Print ("Generating profile " +:+ profile_name r);
     WriteFile (profile_name r) (profile_text r)].

Fixpoint loop_events (fs : gmap string string) (rs : list rendered) : list event :=
  match rs with
  | [] => []
  | r :: rs' => profile_events fs r ++ loop_events (write_if_absent fs r) rs'
  end.

(** The files written according to a trace. *)
Definition writes (tr : list event) : list (string * string) :=
  omap (λ ev, match ev with WriteFile f t => Some (f, t) | _ => None end) tr.

(** The directory and the trace after the profile [r] has been handled. *)
Definition record_profile (r : rendered) (st : state) : state :=
  State (host_settings st) (build_types st) (profiles_path st)
        (Some (write_if_absent (files st) r)) (remotes st)
        (trace st ++ profile_events (files st) r).

(** The three entries after the rounds of [for entry in profile]. *)
Definition fix_entries (host : string) (t : nat * nat * nat) (cn bn : string)
    (st : state) : state :=
  update_entry host (BuildTypes, t.2) (with_runtime cn bn)
    (update_entry host (Compilers, t.1.2) (with_runtime cn bn)
       (update_entry host (OsArch, t.1.1) (with_runtime cn bn) st)).

Definition setup_events (host_platform : option string) (path : string)
  : list event :=
  [Print ("Setup Conan for " +:+ str host_platform);
   Print ("Conan profiles folder " +:+ path);
   MakeDirs path].

Definition known (host_platform : option string) (st : state) : Prop :=
  ∃ key, host_platform = Some key ∧ is_Some (host_settings st !! key).

Definition registered (registry : list remote) : Prop :=
  ∃ x, x ∈ registry ∧ remote_name x = REMOTE.

Definition found_none (registry : list remote) : Prop :=
  length (filter (λ x, remote_name x = REMOTE) registry) = 0.

Definition remote_events (registry : list remote) : list event :=
  ConanRemoteList ::
  if decide (found_none registry) then
    [Print ("Adding remote - " +:+ REMOTE +:+ " -> " +:+ REMOTE_URL);
     ConanRemoteAdd REMOTE REMOTE_URL]
  else
    [Print ("Not adding remote " +:+ REMOTE +:+ " as it is already registered")].

Definition remotes_after (registry : list remote) : list remote :=
  if decide (found_none registry) then registry ++ [Remote REMOTE REMOTE_URL]
  else registry.

(** *** The tables during the loop *)

(** [e] is [e0] up to what the special case may have stored in it. *)
Definition sim (e0 e : entry) : Prop :=
  ∀ cn bn, with_runtime cn bn e = with_runtime cn bn e0.

(** The tables of [st] are those of [pl0] and [bs0] up to [sim]. *)
Definition tables_sim (host : string) (pl0 : platform) (bs0 : list entry)
    (st : state) : Prop :=
  Forall2 sim (os_arch pl0) (pool_list host OsArch st) ∧
  Forall2 sim (compilers pl0) (pool_list host Compilers st) ∧
  Forall2 sim bs0 (pool_list host BuildTypes st).

Definition pool0 (pl0 : platform) (bs0 : list entry) (p : pool) : list entry :=
  match p with OsArch => os_arch pl0 | Compilers => compilers pl0 | BuildTypes => bs0 end.

Ltac unfold_M :=
  unfold print, emit, mbind, M_bind, mret, M_ret, gets, modify, raise in *.

(** *** The first profile of a name, and a reader of blocks *)

(** The first profile of [rs] named [n]. *)
Definition first_named (n : string) (rs : list rendered) : option rendered :=
  head (filter (λ r, profile_name r = n) rs).

(** Does the character [c] occur in [s]? *)
Fixpoint has_char (c : ascii) (s : string) : bool :=
  match s with
  | "" => false
  | String a s' => bool_decide (a = c) || has_char c s'
  end.

(** The lines of a text: its pieces between newlines. *)
Fixpoint lines_of (s : string) : list string :=
  match s with
  | "" => [""]
  | String a s' =>
      if decide (a = "010"%char) then "" :: lines_of s'
      else match lines_of s' with
           | l :: ls => String a l :: ls
           | [] => [String a ""]
           end
  end.

(** The text before the first [c] and, when [c] occurs, the text after it. *)
Fixpoint cut (c : ascii) (s : string) : string * option string :=
  match s with
  | "" => ("", None)
  | String a s' =>
      if decide (a = c) then ("", Some s')
      else (String a (cut c s').1, (cut c s').2)
  end.

(** A reader of what [values_string] writes: one item per line, the key
    before the first [=], the value after it. *)
Definition read_item (line : string) : option (string * string) :=
  match cut "="%char line with
  | (k, Some v) => Some (k, v)
  | (_, None) => None
  end.

Definition read_values (s : string) : dict :=
  if decide (s = "") then [] else omap read_item (lines_of s).

(** What [values_string] writes can be read back when no key has [=] or a
    newline and no value has a newline. *)
Definition readable (d : dict) : Prop :=
  Forall (λ kv, has_char "010"%char kv.1 = false ∧
                has_char "="%char kv.1 = false ∧
                has_char "010"%char kv.2 = false) d.

Definition readable_entry (e : entry) : Prop :=
  readable (settings_of e) ∧ readable (env_of e).

#[global] Instance readable_entry_dec e : Decision (readable_entry e).
Proof. unfold readable_entry, readable. apply _. Defined.

(** *** Names that can be file names *)

(** The directory of the model is keyed by the name of a profile.  A
    directory of the host is so when a name is one path component and two
    names that differ are two files.  That holds on every host for names
    like those of the source: short, and made of lowercase letters, digits,
    [_] and [-]. *)
Definition name_char (c : ascii) : bool :=
  let n := nat_of_ascii c in
  (Nat.leb 97 n && Nat.leb n 122) || (Nat.leb 48 n && Nat.leb n 57) ||
  bool_decide (c = "_"%char) || bool_decide (c = "-"%char).

Fixpoint all_chars (p : ascii → bool) (s : string) : bool :=
  match s with
  | "" => true
  | String a s' => p a && all_chars p s'
  end.

Definition plain_name (s : string) : Prop :=
  String.length s ≤ 64 ∧ all_chars name_char s = true.

Definition plain_names (l : list entry) : Prop :=
  Forall (λ e, plain_name (name e)) l.

#[global] Instance plain_names_dec l : Decision (plain_names l).
Proof. unfold plain_names, plain_name. apply _. Defined.

(** ** Dictionaries *)

Lemma dict_get_setitem_eq k v d : dict_get k (dict_setitem k v d) = Some v.
Proof.
  induction d as [|[k' v'] d IH]; simpl.
  - by rewrite decide_True.
  - destruct (decide (k = k')) as [->|Hne]; simpl.
    + by rewrite decide_True.
    + by rewrite decide_False.
Qed.

Lemma dict_get_setitem_ne k k' v d :
  k ≠ k' → dict_get k' (dict_setitem k v d) = dict_get k' d.
Proof.
  intros Hne. induction d as [|[k0 v0] d IH]; simpl.
  - by rewrite decide_False.
  - destruct (decide (k = k0)) as [->|Hk]; simpl.
    + by rewrite !decide_False.
    + by rewrite IH.
Qed.

Lemma dict_setitem_setitem k v v' d :
  dict_setitem k v (dict_setitem k v' d) = dict_setitem k v d.
Proof.
  induction d as [|[k0 v0] d IH]; simpl.
  - by rewrite decide_True.
  - destruct (decide (k = k0)) as [->|Hk]; simpl.
    + by rewrite decide_True.
    + rewrite decide_False by done. by rewrite IH.
Qed.

Lemma keys_setitem_present k v d :
  k ∈ keys d → keys (dict_setitem k v d) = keys d.
Proof.
  unfold keys. induction d as [|[k0 v0] d IH]; simpl.
  - by intros ?%elem_of_nil.
  - intros Hin. destruct (decide (k = k0)) as [->|Hk]; simpl; [done|].
    f_equal. apply IH. by apply elem_of_cons in Hin as [?|?].
Qed.

Lemma keys_setitem_absent k v d :
  k ∉ keys d → dict_setitem k v d = d ++ [(k, v)].
Proof.
  unfold keys. induction d as [|[k0 v0] d IH]; simpl; [done|].
  intros Hin. apply not_elem_of_cons in Hin as [? ?].
  rewrite decide_False by done. f_equal. by apply IH.
Qed.

Lemma dict_get_None k d : dict_get k d = None ↔ k ∉ keys d.
Proof.
  unfold keys. induction d as [|[k0 v0] d IH]; simpl.
  - split; [intros _; apply not_elem_of_nil|done].
  - rewrite not_elem_of_cons. destruct (decide (k = k0)) as [->|Hk].
    + split; [done|]. by intros [? _].
    + rewrite IH. split; [done|]. by intros [_ ?].
Qed.

(** Later items win: the value under [k] after an update is that of the last
    item of [e] with key [k], or the old value when [e] has none. *)
Lemma dict_get_update k d e :
  dict_get k (dict_update d e) =
  match dict_get k (reverse e) with Some v => Some v | None => dict_get k d end.
Proof.
  unfold dict_update. revert d. induction e as [|[k0 v0] e IH] using rev_ind; intros d.
  - done.
  - rewrite foldl_snoc, reverse_snoc. simpl.
    destruct (decide (k = k0)) as [->|Hk].
    + apply dict_get_setitem_eq.
    + rewrite dict_get_setitem_ne by done. apply IH.
Qed.

Lemma dict_get_app k d1 d2 :
  dict_get k (d1 ++ d2) =
  match dict_get k d1 with Some v => Some v | None => dict_get k d2 end.
Proof.
  induction d1 as [|[k1 v1] d1 IH]; simpl; [done|].
  destruct (decide (k = k1)); [done|apply IH].
Qed.

Lemma dict_get_reverse k d : NoDup (keys d) → dict_get k (reverse d) = dict_get k d.
Proof.
  unfold keys. induction d as [|[k0 v0] d IH]; [done|].
  rewrite fmap_cons, NoDup_cons, reverse_cons. simpl. intros [Hk0 Hnd].
  rewrite dict_get_app, IH by done. simpl.
  destruct (decide (k = k0)) as [->|Hk].
  - by apply dict_get_None in Hk0 as ->.
  - by destruct (dict_get k d).
Qed.

(** ** The table store *)

Lemma alter_at {A} (f g : A → A) (l : list A) i x :
  l !! i = Some x → f x = g x → alter f i l = alter g i l.
Proof.
  intros Hl Hfg. apply list_alter_ext; [|done].
  intros y Hy. rewrite Hl in Hy. by injection Hy as <-.
Qed.

Lemma pool_list_update host r f st :
  pool_list host r.1 (update_entry host r f st) = alter f r.2 (pool_list host r.1 st).
Proof.
  destruct r as [[] i]; unfold pool_list, update_entry; simpl; [| |done];
    rewrite lookup_alter_eq; by destruct (host_settings st !! host).
Qed.

Lemma pool_list_update_ne host p r f st :
  p ≠ r.1 → pool_list host p (update_entry host r f st) = pool_list host p st.
Proof.
  destruct r as [[] i], p; unfold pool_list, update_entry; simpl; try done;
    intros _; rewrite lookup_alter_eq; by destruct (host_settings st !! host).
Qed.

Lemma update_entry_ext host r f g st e :
  pool_list host r.1 st !! r.2 = Some e → f e = g e →
  update_entry host r f st = update_entry host r g st.
Proof.
  destruct r as [[] i]; unfold pool_list, update_entry; simpl; intros He Hfg.
  - f_equal. apply alter_ext. intros pl Hpl. rewrite Hpl in He.
    f_equal. by apply alter_at with e.
  - f_equal. apply alter_ext. intros pl Hpl. rewrite Hpl in He.
    f_equal. by apply alter_at with e.
  - f_equal. by apply alter_at with e.
Qed.

Lemma update_entry_id host r st : update_entry host r id st = st.
Proof.
  destruct st, r as [[] i]; unfold update_entry; simpl; f_equal.
  - apply alter_id. intros [] _. by rewrite list_alter_id.
  - apply alter_id. intros [] _. by rewrite list_alter_id.
  - by apply list_alter_id.
Qed.

Lemma update_entry_fixed host r f st e :
  pool_list host r.1 st !! r.2 = Some e → f e = e → update_entry host r f st = st.
Proof.
  intros He Hf. rewrite <-(update_entry_id host r st) at 2.
  by apply update_entry_ext with e.
Qed.

Lemma update_entry_env host r f st :
  profiles_path (update_entry host r f st) = profiles_path st ∧
  profiles (update_entry host r f st) = profiles st ∧
  remotes (update_entry host r f st) = remotes st ∧
  trace (update_entry host r f st) = trace st.
Proof. by destruct r as [[] i]. Qed.

(** ** The special case for Visual Studio *)

Lemma with_runtime_name cn bn e : name (with_runtime cn bn e) = name e.
Proof.
  unfold with_runtime. destruct (settings e); [|done]. by case_decide.
Qed.

Lemma with_runtime_env cn bn e : env (with_runtime cn bn e) = env e.
Proof.
  unfold with_runtime. destruct (settings e); [|done]. by case_decide.
Qed.

Lemma compiler_setitem_runtime v s :
  dict_get_default "compiler" "" (dict_setitem "compiler.runtime" v s) =
  dict_get_default "compiler" "" s.
Proof. unfold dict_get_default. by rewrite dict_get_setitem_ne. Qed.

(** The special case forgets what an earlier round stored. *)
Lemma with_runtime_twice cn bn cn' bn' e :
  with_runtime cn bn (with_runtime cn' bn' e) = with_runtime cn bn e.
Proof.
  unfold with_runtime. destruct e as [n [s|] ev]; simpl; [|done].
  destruct (decide (dict_get_default "compiler" "" s = "Visual Studio")) as [Hvs|Hvs];
    simpl.
  - rewrite compiler_setitem_runtime, decide_True by done.
    unfold with_settings. simpl. by rewrite dict_setitem_setitem.
  - by rewrite decide_False.
Qed.

Lemma sim_refl e : sim e e.
Proof. done. Qed.

Lemma sim_with_runtime cn bn e0 e : sim e0 e → sim e0 (with_runtime cn bn e).
Proof. intros Hsim cn' bn'. by rewrite with_runtime_twice. Qed.

Lemma sim_name e0 e : sim e0 e → name e = name e0.
Proof.
  intros Hsim. rewrite <-(with_runtime_name "" "" e), <-(with_runtime_name "" "" e0).
  by rewrite Hsim.
Qed.

Lemma sim_env e0 e : sim e0 e → env e = env e0.
Proof.
  intros Hsim. rewrite <-(with_runtime_env "" "" e), <-(with_runtime_env "" "" e0).
  by rewrite Hsim.
Qed.

Lemma tables_sim_start host pl st :
  host_settings st !! host = Some pl → tables_sim host pl (build_types st) st.
Proof.
  intros Hpl. unfold tables_sim, pool_list. rewrite Hpl. simpl.
  split_and!; apply Forall_Forall2_diag, Forall_forall; intros; apply sim_refl.
Qed.

(** ** One iteration of the main loop *)

Lemma deref_lookup host r st e :
  pool_list host r.1 st !! r.2 = Some e → deref host r st = (Ok e, st).
Proof. unfold deref. by intros ->. Qed.

Lemma with_runtime_visual_studio cn bn e s :
  settings e = Some s → dict_get_default "compiler" "" s = "Visual Studio" →
  with_runtime cn bn e =
  with_settings (dict_setitem "compiler.runtime" (runtime_value cn bn) s) e.
Proof. intros Hs Hvs. unfold with_runtime. by rewrite Hs, decide_True. Qed.

Lemma with_runtime_other cn bn e :
  dict_get_default "compiler" "" (settings_of e) ≠ "Visual Studio" →
  with_runtime cn bn e = e.
Proof.
  unfold with_runtime, settings_of. destruct (settings e); simpl; [|done].
  intros Hvs. by rewrite decide_False.
Qed.

Lemma merge_entry_run host cn bn acc r st e :
  pool_list host r.1 st !! r.2 = Some e →
  merge_entry host cn bn acc r st =
  (Ok (dict_update acc.1 (settings_of (with_runtime cn bn e)),
       dict_update acc.2 (env_of e)),
   update_entry host r (with_runtime cn bn) st).
Proof.
  intros He. unfold merge_entry, mbind, M_bind. rewrite (deref_lookup _ _ _ _ He).
  destruct (settings e) as [s|] eqn:Hs.
  - case_decide as Hvs.
    + rewrite (update_entry_ext host r (with_runtime cn bn) _ st e He
                 (with_runtime_visual_studio cn bn e s Hs Hvs)).
      rewrite (with_runtime_visual_studio cn bn e s Hs Hvs). done.
    + assert (Hid : with_runtime cn bn e = e).
      { apply with_runtime_other. unfold settings_of. by rewrite Hs. }
      rewrite (update_entry_fixed host r _ st e He Hid), Hid.
      unfold settings_of. by rewrite Hs.
  - assert (Hid : with_runtime cn bn e = e).
    { unfold with_runtime. by rewrite Hs. }
    rewrite (update_entry_fixed host r _ st e He Hid), Hid.
    unfold settings_of. by rewrite Hs.
Qed.

(** The template has the two fields [settings] and [env], in that order,
    between fixed lines. *)
Lemma format_template settings_str env_str :
  format_from [("settings", settings_str); ("env", env_str)] None
              CONAN_PROFILE_TEMPLATE
  = Ok (profile_template settings_str env_str).
Proof. reflexivity. Qed.

Lemma format_run settings_str env_str st :
  format CONAN_PROFILE_TEMPLATE [("settings", settings_str); ("env", env_str)] st
  = (Ok (profile_template settings_str env_str), st).
Proof. unfold format. by rewrite format_template. Qed.

Lemma generate_profile_run host t st c :
  state_combination host st t = Some c →
  is_Some (profiles st) →
  generate_profile host t st =
  (Ok (render3 c),
   record_profile (render3 c) (fix_entries host t (name c.1.2) (name c.2) st)).
Proof.
  destruct t as [[i j] k], c as [[o c] b]. unfold state_combination.
  intros Hc [fs Hfs]. cbn [fst snd] in Hc.
  apply bind_Some in Hc as (o' & Ho & Hc).
  apply bind_Some in Hc as (c' & Hc' & Hc).
  apply bind_Some in Hc as (b' & Hb & Hc).
  injection Hc as -> -> ->.
  unfold generate_profile, mbind, M_bind.
  rewrite (deref_lookup host (OsArch, i) st o Ho).
  rewrite (deref_lookup host (Compilers, j) st c Hc').
  rewrite (deref_lookup host (BuildTypes, k) st b Hb).
  unfold fold_each, mbind, M_bind.
  rewrite (merge_entry_run _ _ _ _ (OsArch, i) st o Ho).
  set (st1 := update_entry host (OsArch, i) _ st).
  assert (Hc1 : pool_list host (Compilers, j).1 st1 !! j = Some c).
  { subst st1. by rewrite pool_list_update_ne. }
  rewrite (merge_entry_run _ _ _ _ (Compilers, j) st1 c Hc1).
  set (st2 := update_entry host (Compilers, j) _ st1).
  assert (Hb2 : pool_list host (BuildTypes, k).1 st2 !! k = Some b).
  { subst st2 st1. by rewrite !pool_list_update_ne. }
  rewrite (merge_entry_run _ _ _ _ (BuildTypes, k) st2 b Hb2).
  set (st3 := update_entry host (BuildTypes, k) _ st2).
  assert (Hfs3 : profiles st3 = Some fs).
  { subst st3 st2 st1.
    by rewrite !(proj1 (proj2 (update_entry_env _ _ _ _))). }
  unfold mret, M_ret. cbn [fst snd]. rewrite format_run.
  unfold render3, render, merge3, combination_name, fix_entries. cbn [fst snd].
  fold st1 st2 st3.
  assert (Hfiles : files st3 = fs) by (unfold files; by rewrite Hfs3).
  unfold record_profile, write_if_absent, profile_events, path_exists, gets.
  cbn [profile_name profile_text]. rewrite Hfiles.
  destruct (decide (is_Some (fs !! (name o +:+ "-" +:+ name c +:+ "-" +:+ name b))))
    as [Hin|Hin].
  - rewrite bool_decide_true by done. cbn [negb]. unfold_M. by rewrite Hfs3.
  - rewrite bool_decide_false by done. cbn [negb]. unfold write_file.
    unfold_M. cbn [profiles]. rewrite Hfs3. cbn [trace]. by rewrite <-app_assoc.
Qed.

(** ** The main loop *)

(** The loop runs for the platform under the key [host]; [pl0] and [bs0]
    are the platform and the build types as the tables had them when it
    started. *)
Section loop.
Context (host : string) (pl0 : platform) (bs0 : list entry).

Lemma tables_sim_pool st :
  tables_sim host pl0 bs0 st ↔
  ∀ p, Forall2 sim (pool0 pl0 bs0 p) (pool_list host p st).
Proof.
  split.
  - intros (?&?&?) []; done.
  - intros H. split_and!; [apply (H OsArch)|apply (H Compilers)|apply (H BuildTypes)].
Qed.

Lemma tables_sim_update st r cn bn :
  tables_sim host pl0 bs0 st →
  tables_sim host pl0 bs0 (update_entry host r (with_runtime cn bn) st).
Proof.
  rewrite !tables_sim_pool. intros H p.
  destruct (decide (p = r.1)) as [->|Hp].
  - rewrite pool_list_update. apply Forall2_alter_r; [done|].
    intros ?? _ _. apply sim_with_runtime.
  - by rewrite pool_list_update_ne.
Qed.

Lemma state_combination_sim st t c0 :
  tables_sim host pl0 bs0 st → combination pl0 bs0 t = Some c0 →
  ∃ c, state_combination host st t = Some c ∧
       sim c0.1.1 c.1.1 ∧ sim c0.1.2 c.1.2 ∧ sim c0.2 c.2.
Proof.
  intros (Hos & Hcs & Hbs) Hc0. unfold combination in Hc0.
  apply bind_Some in Hc0 as (o0 & Ho0 & Hc0).
  apply bind_Some in Hc0 as (c0' & Hc0' & Hc0).
  apply bind_Some in Hc0 as (b0 & Hb0 & Hc0). injection Hc0 as <-.
  destruct (Forall2_lookup_l _ _ _ _ _ Hos Ho0) as (o & Ho & ?).
  destruct (Forall2_lookup_l _ _ _ _ _ Hcs Hc0') as (c & Hc & ?).
  destruct (Forall2_lookup_l _ _ _ _ _ Hbs Hb0) as (b & Hb & ?).
  exists (o, c, b). unfold state_combination. rewrite Ho, Hc, Hb. done.
Qed.

(** A profile depends on its entries only up to [sim]. *)
Lemma render_sim o0 c0 b0 o c b :
  sim o0 o → sim c0 c → sim b0 b → render o c b = render o0 c0 b0.
Proof.
  intros Ho Hc Hb. unfold render, combination_name, env_of.
  rewrite (sim_name _ _ Ho), (sim_name _ _ Hc), (sim_name _ _ Hb).
  rewrite (sim_env _ _ Ho), (sim_env _ _ Hc), (sim_env _ _ Hb).
  by rewrite (Ho _ _), (Hc _ _), (Hb _ _).
Qed.

Lemma tables_sim_fix_entries st t cn bn :
  tables_sim host pl0 bs0 st → tables_sim host pl0 bs0 (fix_entries host t cn bn st).
Proof. intros H. unfold fix_entries. by do 3 apply tables_sim_update. Qed.

Lemma tables_sim_record_profile st r :
  tables_sim host pl0 bs0 st → tables_sim host pl0 bs0 (record_profile r st).
Proof. done. Qed.

Lemma fix_entries_env t cn bn st :
  profiles_path (fix_entries host t cn bn st) = profiles_path st ∧
  profiles (fix_entries host t cn bn st) = profiles st ∧
  remotes (fix_entries host t cn bn st) = remotes st ∧
  trace (fix_entries host t cn bn st) = trace st.
Proof.
  unfold fix_entries.
  destruct (update_entry_env host (BuildTypes, t.2) (with_runtime cn bn)
    (update_entry host (Compilers, t.1.2) (with_runtime cn bn)
       (update_entry host (OsArch, t.1.1) (with_runtime cn bn) st)))
    as (-> & -> & -> & ->).
  destruct (update_entry_env host (Compilers, t.1.2) (with_runtime cn bn)
       (update_entry host (OsArch, t.1.1) (with_runtime cn bn) st))
    as (-> & -> & -> & ->).
  apply update_entry_env.
Qed.

(** Whatever the order [ts] in which permutations are visited, each one
    renders to the profile of its entries in the tables [pl0] and [bs0] the
    loop started from, and files are written unless present. *)
Lemma for_each_generate_profile ts cs st :
  tables_sim host pl0 bs0 st →
  is_Some (profiles st) →
  Forall2 (λ t c, combination pl0 bs0 t = Some c) ts cs →
  ∃ st',
    for_each ts (generate_profile host) st = (Ok (render3 <$> cs), st') ∧
    tables_sim host pl0 bs0 st' ∧
    profiles st' = Some (foldl write_if_absent (files st) (render3 <$> cs)) ∧
    trace st' = trace st ++ loop_events (files st) (render3 <$> cs) ∧
    remotes st' = remotes st ∧
    profiles_path st' = profiles_path st.
Proof.
  intros Hsim Hdir Hts. revert st Hsim Hdir.
  induction Hts as [|t c0 ts cs Ht Hts IH]; intros st Hsim Hdir.
  - exists st. simpl. rewrite app_nil_r. split_and!; try done.
    destruct Hdir as [fs Hfs]. unfold files. by rewrite Hfs.
  - destruct (state_combination_sim _ _ _ Hsim Ht) as (c & Hc & Ho & Hcc & Hb).
    simpl. unfold mbind at 1, M_bind at 1.
    rewrite (generate_profile_run host t st c Hc Hdir).
    assert (Hr : render3 c = render3 c0) by (by apply render_sim).
    rewrite Hr.
    set (st1 := record_profile (render3 c0) (fix_entries host t (name c.1.2) (name c.2) st)).
    assert (Hfiles : files (fix_entries host t (name c.1.2) (name c.2) st) = files st).
    { unfold files. by rewrite (proj1 (proj2 (fix_entries_env _ _ _ _))). }
    destruct (IH st1) as (st' & Hrun & Hsim' & Hfs' & Htr' & Hrem' & Hpath').
    { by apply tables_sim_record_profile, tables_sim_fix_entries. }
    { by eexists. }
    exists st'. unfold mbind, M_bind. rewrite Hrun. unfold mret, M_ret.
    assert (Hfiles1 : files st1 = write_if_absent (files st) (render3 c0)).
    { subst st1. unfold files at 1, record_profile. cbn [profiles default from_option].
      by rewrite Hfiles. }
    assert (Htrace1 : trace st1 = trace st ++ profile_events (files st) (render3 c0)).
    { subst st1. unfold record_profile. cbn [trace]. rewrite Hfiles.
      by rewrite (proj2 (proj2 (proj2 (fix_entries_env _ _ _ _)))). }
    split_and!.
    + done.
    + done.
    + by rewrite Hfs', Hfiles1.
    + simpl. by rewrite Htr', Htrace1, Hfiles1, <-app_assoc.
    + rewrite Hrem'. subst st1. unfold record_profile. cbn [remotes].
      by rewrite (proj1 (proj2 (proj2 (fix_entries_env _ _ _ _)))).
    + rewrite Hpath'. subst st1. unfold record_profile. cbn [profiles_path].
      by rewrite (proj1 (fix_entries_env _ _ _ _)).
Qed.

End loop.

(** The positions that [itertools.product] ranges over are those of the
    Cartesian product of the three lists, in the same order. *)
Lemma seq_lookup {A} (l : list A) :
  Forall2 (λ i x, l !! i = Some x) (seq 0 (length l)) l.
Proof.
  apply Forall2_same_length_lookup. split; [by rewrite length_seq|].
  intros i j x Hj Hx. by apply lookup_seq in Hj as [-> _].
Qed.

Lemma product_combination pl bs :
  Forall2 (λ t c, combination pl bs t = Some c)
    (product (seq 0 (length (os_arch pl))) (seq 0 (length (compilers pl)))
             (seq 0 (length bs)))
    (product (os_arch pl) (compilers pl) bs).
Proof.
  unfold product.
  apply Forall2_bind. eapply Forall2_impl; [apply seq_lookup|]. intros i o Ho.
  apply Forall2_bind. eapply Forall2_impl; [apply seq_lookup|]. intros j c Hc.
  apply Forall2_bind. eapply Forall2_impl; [apply seq_lookup|]. intros k b Hb.
  constructor; [|constructor]. unfold combination. simpl.
  by rewrite Ho, Hc, Hb.
Qed.

(** ** The run as a whole *)

Lemma found_none_registered registry : found_none registry ↔ ¬ registered registry.
Proof.
  unfold found_none, registered. rewrite length_zero_iff_nil. split.
  - intros Hnil (x & Hx & Hname).
    assert (Hin : x ∈ filter (λ x, remote_name x = REMOTE) registry)
      by (by apply list_elem_of_filter).
    rewrite Hnil in Hin. by apply elem_of_nil in Hin.
  - intros Hno. destruct (filter _ registry) as [|x l] eqn:Hf; [done|].
    exfalso. apply Hno. exists x.
    assert (Hin : x ∈ filter (λ x, remote_name x = REMOTE) registry)
      by (rewrite Hf; apply elem_of_cons; by left).
    apply list_elem_of_filter in Hin as [? ?]. done.
Qed.

Lemma register_remote_run st :
  register_remote st =
  (Ok tt, State (host_settings st) (build_types st) (profiles_path st)
                (profiles st) (remotes_after (remotes st))
                (trace st ++ remote_events (remotes st))).
Proof.
  unfold register_remote, conan_remote_list, conan_remote_add, remote_events,
    remotes_after, found_none.
  unfold_M. cbn [remotes trace host_settings build_types profiles_path profiles].
  case_decide; cbn [remotes trace host_settings build_types profiles_path profiles];
    by rewrite <-?app_assoc.
Qed.

Lemma lookup_platform_known host pl st :
  host_settings st !! host = Some pl → lookup_platform (Some host) st = (Ok host, st).
Proof. intros Hpl. unfold lookup_platform. by rewrite decide_True by eauto. Qed.

Lemma lookup_platform_unknown host_platform st :
  ¬ known host_platform st →
  lookup_platform host_platform st = (Raise (KeyError host_platform), st).
Proof.
  intros Hno. unfold lookup_platform. destruct host_platform as [key|]; [|done].
  rewrite decide_False; [done|]. intros ?. apply Hno. by exists key.
Qed.

Lemma prepare_run host pl st :
  host_settings st !! host = Some pl →
  prepare (Some host) st =
  (Ok host,
   State (host_settings st) (build_types st) (profiles_path st)
         (Some (files st)) (remotes_after (remotes st))
         (trace st ++ setup_events (Some host) (profiles_path st) ++
          [ConanFactory; ConanCreateApp] ++ remote_events (remotes st))).
Proof.
  intros Hpl. unfold prepare, makedirs, conan_factory, conan_create_app.
  unfold_M. cbn [remotes trace host_settings build_types profiles_path profiles].
  erewrite lookup_platform_known by done.
  rewrite register_remote_run.
  cbn [remotes trace host_settings build_types profiles_path profiles].
  unfold setup_events, files. by rewrite <-!app_assoc.
Qed.

Lemma prepare_unknown host_platform st :
  ¬ known host_platform st →
  prepare host_platform st =
  (Raise (KeyError host_platform),
   State (host_settings st) (build_types st) (profiles_path st)
         (Some (files st)) (remotes st)
         (trace st ++ setup_events host_platform (profiles_path st))).
Proof.
  intros Hno. unfold prepare, makedirs. unfold_M.
  cbn [remotes trace host_settings build_types profiles_path profiles].
  rewrite lookup_platform_unknown by done.
  unfold setup_events, files. by rewrite <-!app_assoc.
Qed.

Lemma generate_profiles_run host pl st :
  host_settings st !! host = Some pl →
  is_Some (profiles st) →
  let rs := render3 <$> product (os_arch pl) (compilers pl) (build_types st) in
  ∃ st',
    generate_profiles host st = (Ok rs, st') ∧
    tables_sim host pl (build_types st) st' ∧
    profiles st' = Some (foldl write_if_absent (files st) rs) ∧
    trace st' = trace st ++ loop_events (files st) rs ∧
    remotes st' = remotes st ∧
    profiles_path st' = profiles_path st.
Proof.
  intros Hpl Hdir rs. unfold generate_profiles. unfold_M.
  unfold pool_list. rewrite Hpl. cbn [fmap option_fmap option_map default from_option].
  apply for_each_generate_profile; [by apply tables_sim_start|done|].
  apply product_combination.
Qed.

(** A run for a platform of the table. *)
Lemma profiles_of_run host pl st :
  host_settings st !! host = Some pl →
  let rs := render3 <$> product (os_arch pl) (compilers pl) (build_types st) in
  ∃ st',
    profiles_of (Some host) st = (Ok rs, st') ∧
    Main (Some host) st = (Ok tt, st') ∧
    tables_sim host pl (build_types st) st' ∧
    profiles st' = Some (foldl write_if_absent (files st) rs) ∧
    trace st' = trace st ++ setup_events (Some host) (profiles_path st) ++
                [ConanFactory; ConanCreateApp] ++ remote_events (remotes st) ++
                loop_events (files st) rs ∧
    remotes st' = remotes_after (remotes st) ∧
    profiles_path st' = profiles_path st.
Proof.
  intros Hpl rs. unfold Main, profiles_of. unfold mbind, M_bind.
  rewrite (prepare_run host pl st Hpl).
  set (st1 := State _ _ _ _ _ _).
  destruct (generate_profiles_run host pl st1 Hpl) as
    (st' & Hrun & Hsim & Hfs & Htr & Hrem & Hpath); [by eexists|].
  exists st'. rewrite Hrun. split_and!; try done.
  rewrite Htr. subst st1. cbn [trace]. by rewrite <-!app_assoc.
Qed.

(** A run for anything else. *)
Lemma profiles_of_unknown host_platform st :
  ¬ known host_platform st →
  let st' := State (host_settings st) (build_types st) (profiles_path st)
                   (Some (files st)) (remotes st)
                   (trace st ++ setup_events host_platform (profiles_path st)) in
  profiles_of host_platform st = (Raise (KeyError host_platform), st') ∧
  Main host_platform st = (Raise (KeyError host_platform), st').
Proof.
  intros Hno st'. unfold Main, profiles_of. unfold mbind, M_bind.
  by rewrite (prepare_unknown host_platform st Hno).
Qed.

(** ** Files written by the loop *)

Lemma writes_app tr1 tr2 : writes (tr1 ++ tr2) = writes tr1 ++ writes tr2.
Proof. apply omap_app. Qed.

Lemma writes_setup_events host_platform path :
  writes (setup_events host_platform path) = [].
Proof. done. Qed.

Lemma writes_remote_events registry : writes (remote_events registry) = [].
Proof. unfold remote_events. by case_decide. Qed.

Lemma writes_run_events host_platform path registry fs rs :
  writes (setup_events host_platform path ++ [ConanFactory; ConanCreateApp] ++
          remote_events registry ++ loop_events fs rs)
  = writes (loop_events fs rs).
Proof.
  rewrite !writes_app, writes_setup_events, writes_remote_events. done.
Qed.

Lemma remote_add_remote_events registry n u :
  ConanRemoteAdd n u ∈ remote_events registry ↔
  n = REMOTE ∧ u = REMOTE_URL ∧ ¬ registered registry.
Proof.
  unfold remote_events. rewrite <-found_none_registered. case_decide as Hf.
  - rewrite !elem_of_cons, elem_of_nil. split.
    + intros [?|[?|[Heq|[]]]]; try done. by injection Heq as -> ->.
    + intros (-> & -> & _). auto.
  - rewrite !elem_of_cons, elem_of_nil. split.
    + by intros [?|[?|[]]].
    + by intros (_ & _ & ?).
Qed.

Lemma writes_profile_events fs r :
  writes (profile_events fs r) =
  if decide (is_Some (fs !! profile_name r)) then []
  else [(profile_name r, profile_text r)].
Proof. unfold profile_events. by case_decide. Qed.

Lemma write_if_absent_lookup fs r file text :
  fs !! file = Some text → write_if_absent fs r !! file = Some text.
Proof.
  intros Hf. unfold write_if_absent. case_decide as Hin; [done|].
  rewrite lookup_insert_ne; [done|]. intros <-. apply Hin. by eexists.
Qed.

(** Files of the directory keep their text through the loop. *)
Lemma foldl_write_if_absent_lookup rs fs file text :
  fs !! file = Some text → foldl write_if_absent fs rs !! file = Some text.
Proof.
  revert fs. induction rs as [|r rs IH]; intros fs Hf; [done|].
  simpl. by apply IH, write_if_absent_lookup.
Qed.

(** A file is written only if absent, and then with the name and the text
    of a profile of the loop. *)
Lemma writes_loop_events_elem rs fs file text :
  (file, text) ∈ writes (loop_events fs rs) →
  fs !! file = None ∧
  ∃ r, r ∈ rs ∧ file = profile_name r ∧ text = profile_text r.
Proof.
  revert fs. induction rs as [|r rs IH]; intros fs; simpl.
  - by intros ?%elem_of_nil.
  - rewrite writes_app, writes_profile_events, elem_of_app.
    intros [Hhere|Hlater].
    + case_decide as Hin; [by apply elem_of_nil in Hhere|].
      apply list_elem_of_singleton in Hhere. injection Hhere as -> ->.
      split; [by apply eq_None_not_Some|].
      exists r. split; [apply elem_of_cons; by left|done].
    + destruct (IH _ Hlater) as (Hnone & r' & Hr' & -> & ->).
      split.
      * destruct (fs !! profile_name r') as [t|] eqn:Hf; [|done].
        by rewrite (write_if_absent_lookup fs r _ t Hf) in Hnone.
      * exists r'. split; [apply elem_of_cons; by right|done].
Qed.

(** Into a directory that has none of them, profiles with distinct names
    are all written, in order. *)
Lemma writes_loop_events_fresh rs fs :
  NoDup (profile_name <$> rs) →
  Forall (λ r, fs !! profile_name r = None) rs →
  writes (loop_events fs rs) = (λ r, (profile_name r, profile_text r)) <$> rs.
Proof.
  revert fs. induction rs as [|r rs IH]; intros fs Hnd Habs; [done|].
  rewrite fmap_cons, NoDup_cons in Hnd. destruct Hnd as [Hr Hnd].
  apply Forall_cons in Habs as [Hr0 Habs].
  simpl. rewrite writes_app, writes_profile_events.
  rewrite decide_False by (rewrite Hr0; by intros [? ?]).
  simpl. f_equal. apply IH; [done|].
  apply Forall_forall. intros r' Hr'. unfold write_if_absent.
  rewrite decide_False by (rewrite Hr0; by intros [? ?]).
  rewrite lookup_insert_ne.
  - by apply (proj1 (Forall_forall _ _) Habs).
  - intros Heq. apply Hr. rewrite Heq. by apply list_elem_of_fmap_2.
Qed.

Lemma length_product {A B C} (a : list A) (b : list B) (c : list C) :
  length (product a b c) = length a * length b * length c.
Proof.
  unfold product.
  assert (Hc : ∀ (x : A) (y : B), length (c ≫= λ z, [(x, y, z)]) = length c).
  { intros x y. induction c as [|z c IH]; [done|]. rewrite bind_cons. simpl.
    by rewrite IH. }
  assert (Hb : ∀ x : A,
    length (b ≫= λ y, c ≫= λ z, [(x, y, z)]) = length b * length c).
  { intros x. induction b as [|y b IH]; [done|].
    rewrite bind_cons, length_app, Hc, IH. simpl. lia. }
  induction a as [|x a IH]; [done|].
  rewrite bind_cons, length_app, Hb, IH. simpl. lia.
Qed.

(** The table of the source has the keys [Linux] and [Windows]. *)
Lemma HOST_SETTINGS_lookup host pl :
  HOST_SETTINGS !! host = Some pl →
  (host = "Linux" ∧ pl = Linux) ∨ (host = "Windows" ∧ pl = Windows).
Proof.
  unfold HOST_SETTINGS. intros H.
  apply lookup_insert_Some in H as [[<- <-]|[_ H]]; [by left|].
  apply lookup_insert_Some in H as [[<- <-]|[_ H]]; [by right|].
  by rewrite lookup_empty in H.
Qed.

Lemma static_names_NoDup host pl :
  HOST_SETTINGS !! host = Some pl →
  NoDup (profile_name <$> (render3 <$> product (os_arch pl) (compilers pl) BUILD_TYPES)).
Proof.
  intros [[_ ->]|[_ ->]]%HOST_SETTINGS_lookup;
    apply (bool_decide_unpack _); by vm_compute.
Qed.

(** ** Merging, lookup by lookup and as an ordered union *)

Lemma dict_get_update_unique k d e :
  NoDup (keys e) →
  dict_get k (dict_update d e) =
  match dict_get k e with Some v => Some v | None => dict_get k d end.
Proof. intros Hnd. by rewrite dict_get_update, dict_get_reverse. Qed.

Lemma dict_get_update_absent k d e :
  dict_get k e = None → dict_get k (dict_update d e) = dict_get k d.
Proof.
  intros Hk. rewrite dict_get_update.
  assert (Hrev : dict_get k (reverse e) = None).
  { apply dict_get_None. apply dict_get_None in Hk. unfold keys in *.
    by rewrite fmap_reverse, elem_of_reverse. }
  by rewrite Hrev.
Qed.

Lemma keys_setitem k v d :
  keys (dict_setitem k v d) = if decide (k ∈ keys d) then keys d else keys d ++ [k].
Proof.
  case_decide as Hin.
  - by apply keys_setitem_present.
  - rewrite keys_setitem_absent by done. unfold keys. by rewrite fmap_app.
Qed.

Lemma NoDup_keys_setitem k v d : NoDup (keys d) → NoDup (keys (dict_setitem k v d)).
Proof.
  intros Hnd. rewrite keys_setitem. case_decide as Hin; [done|].
  apply NoDup_app. split_and!; [done| |apply NoDup_singleton].
  intros x Hx ->%list_elem_of_singleton. done.
Qed.

Lemma override_nil_l e : override [] e = e.
Proof.
  unfold override. rewrite fmap_nil, app_nil_l.
  induction e as [|kv e IH]; [done|].
  rewrite filter_cons_True by apply not_elem_of_nil.
  by rewrite IH.
Qed.

Lemma override_nil_r d : override d [] = d.
Proof.
  unfold override. rewrite filter_nil, app_nil_r.
  induction d as [|[k v] d IH]; [done|]. by rewrite fmap_cons, IH.
Qed.

Lemma filter_ext_in {A} (P Q : A → Prop) `{!∀ x, Decision (P x), !∀ x, Decision (Q x)}
    (l : list A) :
  (∀ x, x ∈ l → P x ↔ Q x) → filter P l = filter Q l.
Proof.
  induction l as [|x l IH]; intros Hext; [done|].
  rewrite !filter_cons.
  assert (Hx : P x ↔ Q x) by (apply Hext, elem_of_cons; by left).
  rewrite IH by (intros y Hy; apply Hext, elem_of_cons; by right).
  destruct (decide (P x)), (decide (Q x)); try done; exfalso; tauto.
Qed.

Lemma overridden_cons_absent k v e d :
  k ∉ keys d → overridden ((k, v) :: e) d = overridden e d.
Proof.
  intros Hk. apply Forall_fmap_ext, Forall_forall. intros [k0 v0] Hin. simpl.
  rewrite decide_False; [done|]. intros <-. apply Hk.
  unfold keys. by apply (list_elem_of_fmap_2 fst) in Hin.
Qed.

Lemma overridden_setitem k v e d :
  NoDup (keys d) → k ∈ keys d → k ∉ keys e →
  overridden ((k, v) :: e) d = overridden e (dict_setitem k v d).
Proof.
  intros Hnd Hin Hk. apply dict_get_None in Hk.
  induction d as [|[k0 v0] d IH]; [by apply elem_of_nil in Hin|].
  unfold keys in Hnd, Hin. rewrite fmap_cons in Hnd, Hin.
  apply NoDup_cons in Hnd as [Hk0 Hnd]. cbn [fst] in *.
  unfold overridden. simpl. destruct (decide (k = k0)) as [->|Hne].
  - rewrite decide_True by done. simpl. rewrite Hk. simpl. f_equal.
    by apply overridden_cons_absent.
  - rewrite decide_False by done. simpl. f_equal. apply IH; [done|].
    by apply elem_of_cons in Hin as [?|?].
Qed.

Lemma keys_overridden e d : keys (overridden e d) = keys d.
Proof.
  unfold keys, overridden. rewrite <-list_fmap_compose. by apply list_fmap_ext.
Qed.

(** Storing one more item into an ordered union. *)
Lemma override_cons d k v e :
  NoDup (keys d) → k ∉ keys e →
  override d ((k, v) :: e) = override (dict_setitem k v d) e.
Proof.
  intros Hnd Hk. unfold override. fold (overridden ((k, v) :: e) d).
  fold (overridden e (dict_setitem k v d)).
  destruct (decide (k ∈ keys d)) as [Hin|Hin].
  - rewrite filter_cons_False by (simpl; by intros ?).
    rewrite keys_setitem_present by done. f_equal.
    by apply overridden_setitem.
  - rewrite filter_cons_True by done.
    rewrite (keys_setitem_absent k v d Hin).
    unfold overridden at 2. rewrite fmap_app. fold (overridden e d). simpl.
    apply dict_get_None in Hk as Hget. rewrite Hget. simpl.
    rewrite overridden_cons_absent by done. rewrite <-app_assoc. simpl.
    do 2 f_equal. apply filter_ext_in. intros [k1 v1] Hin1. simpl.
    unfold keys. rewrite fmap_app, elem_of_app. simpl.
    split.
    + intros Hno [?|Heq%list_elem_of_singleton]; [done|].
      subst k1. apply Hk. unfold keys. by apply (list_elem_of_fmap_2 fst) in Hin1.
    + intros Hno ?. apply Hno. by left.
Qed.

(** [update] computes the ordered union. *)
Lemma dict_update_override d e :
  NoDup (keys d) → NoDup (keys e) → dict_update d e = override d e.
Proof.
  revert d. induction e as [|[k v] e IH]; intros d Hd He.
  - by rewrite override_nil_r.
  - unfold keys in He. rewrite fmap_cons in He. apply NoDup_cons in He as [Hk He].
    rewrite override_cons by done.
    rewrite <-IH by (done || by apply NoDup_keys_setitem). done.
Qed.

Lemma keys_filter (P : string → Prop) `{!∀ k, Decision (P k)} (e : dict) :
  keys (filter (λ kv, P kv.1) e) = filter P (keys e).
Proof.
  unfold keys. induction e as [|[k v] e IH]; [done|].
  rewrite fmap_cons, !filter_cons. cbn [fst].
  case_decide; [rewrite fmap_cons|]; by rewrite IH.
Qed.

Lemma keys_override d e :
  keys (override d e) = keys d ++ filter (λ k, k ∉ keys d) (keys e).
Proof.
  unfold override. fold (overridden e d). unfold keys at 1. rewrite fmap_app.
  fold (keys (overridden e d)). rewrite keys_overridden. f_equal.
  exact (keys_filter (λ k, k ∉ keys d) e).
Qed.

Lemma NoDup_keys_override d e :
  NoDup (keys d) → NoDup (keys e) → NoDup (keys (override d e)).
Proof.
  intros Hd He. rewrite keys_override. apply NoDup_app. split_and!.
  - done.
  - intros k Hk [Hno _]%list_elem_of_filter. done.
  - by apply NoDup_filter.
Qed.

(** The merge of the loop is the ordered union of the three mappings, the
    later ones winning. *)
Lemma merge3_override d1 d2 d3 :
  NoDup (keys d1) → NoDup (keys d2) → NoDup (keys d3) →
  merge3 d1 d2 d3 = override (override d1 d2) d3.
Proof.
  intros H1 H2 H3. unfold merge3.
  rewrite (dict_update_override [] d1), override_nil_l by (done || apply NoDup_nil_2).
  rewrite (dict_update_override d1 d2) by done.
  by rewrite dict_update_override by (done || by apply NoDup_keys_override).
Qed.

(** ** The runtime of Visual Studio *)

Lemma runtime_value_cases cn bn :
  runtime_value cn bn =
  if decide (cn = "msvc_mt") then (if decide (bn = "debug") then "MTd" else "MT")
  else (if decide (bn = "debug") then "MDd" else "MD").
Proof. unfold runtime_value. by repeat case_decide. Qed.

Lemma settings_of_with_runtime cn bn e :
  visual_studio e →
  settings (with_runtime cn bn e) =
    Some (dict_setitem "compiler.runtime" (runtime_value cn bn) (settings_of e)).
Proof.
  unfold visual_studio, settings_of, with_runtime.
  destruct (settings e) as [s|]; simpl; [|done].
  intros Hvs. by rewrite decide_True.
Qed.

Lemma render_runtime o c b :
  NoDup (keys (settings_of c)) →
  visual_studio c →
  ¬ visual_studio b →
  dict_get "compiler.runtime" (settings_of b) = None →
  dict_get "compiler.runtime" (profile_settings (render o c b)) =
    Some (runtime_value (name c) (name b)).
Proof.
  intros Hnd Hc Hb Hrt. unfold render, merge3. cbn [profile_settings].
  rewrite (with_runtime_other _ _ b Hb).
  rewrite dict_get_update_absent by done.
  unfold settings_of at 2. rewrite (settings_of_with_runtime _ _ c Hc).
  cbn [default from_option id].
  rewrite dict_get_update_unique by (by apply NoDup_keys_setitem).
  by rewrite dict_get_setitem_eq.
Qed.

Lemma render_plain o c b :
  ¬ visual_studio o → ¬ visual_studio c → ¬ visual_studio b →
  profile_settings (render o c b) =
    merge3 (settings_of o) (settings_of c) (settings_of b).
Proof.
  intros Ho Hc Hb. unfold render. cbn [profile_settings].
  by rewrite !with_runtime_other.
Qed.

Lemma elem_of_product {A B C} (a : list A) (b : list B) (c : list C) x y z :
  (x, y, z) ∈ product a b c ↔ x ∈ a ∧ y ∈ b ∧ z ∈ c.
Proof.
  unfold product. rewrite list_elem_of_bind. split.
  - intros (x' & Hin & Hx).
    apply list_elem_of_bind in Hin as (y' & Hin & Hy).
    apply list_elem_of_bind in Hin as (z' & Hin & Hz).
    apply list_elem_of_singleton in Hin. by injection Hin as -> -> ->.
  - intros (Hx & Hy & Hz). exists x. split; [|done].
    apply list_elem_of_bind. exists y. split; [|done].
    apply list_elem_of_bind. exists z. split; [|done].
    by apply list_elem_of_singleton.
Qed.

Lemma Forall2_product_render (P : entry * entry * entry → rendered → Prop)
    (a b c : list entry) :
  (∀ x y z, x ∈ a → y ∈ b → z ∈ c → P (x, y, z) (render x y z)) →
  Forall2 P (product a b c) (render3 <$> product a b c).
Proof.
  intros HP. apply Forall2_fmap_r, Forall_Forall2_diag, Forall_forall.
  intros [[x y] z] (? & ? & ?)%elem_of_product. by apply HP.
Qed.

Lemma for_each_snoc {A B} (l : list A) (x : A) (body : A → M B) st :
  for_each (l ++ [x]) body st =
  match for_each l body st with
  | (Ok ys, st1) =>
      match body x st1 with
      | (Ok y, st2) => (Ok (ys ++ [y]), st2)
      | (Raise e, st2) => (Raise e, st2)
      end
  | (Raise e, st1) => (Raise e, st1)
  end.
Proof.
  revert st. induction l as [|x0 l IH]; intros st; simpl.
  - unfold mbind, M_bind, mret, M_ret. by destruct (body x st) as [[y|e] st2].
  - unfold mbind, M_bind, mret, M_ret.
    destruct (body x0 st) as [[y0|e] st0]; [|done].
    rewrite IH. destruct (for_each l body st0) as [[ys|e] st1]; [|done].
    by destruct (body x st1) as [[y|e] st2].
Qed.

(** The entry of the compiler after an iteration, read back from the
    table. *)
Lemma fix_entries_compiler host t cn bn st c r :
  pool_list host Compilers st !! t.1.2 = Some c →
  pool_list host Compilers (record_profile r (fix_entries host t cn bn st)) !! t.1.2
  = Some (with_runtime cn bn c).
Proof.
  intros Hc.
  change (pool_list host Compilers (record_profile r (fix_entries host t cn bn st)))
    with (pool_list host Compilers (fix_entries host t cn bn st)).
  unfold fix_entries.
  rewrite (pool_list_update_ne host Compilers (BuildTypes, t.2)) by done.
  rewrite (pool_list_update host (Compilers, t.1.2)). cbn [fst snd].
  rewrite list_lookup_alter_eq.
  rewrite (pool_list_update_ne host Compilers (OsArch, t.1.1)) by done.
  by rewrite Hc.
Qed.

Lemma values_string_lines d : values_string d = key_value_lines d.
Proof.
  unfold values_string. induction d as [|[k v] d IH]; [done|].
  destruct d as [|kv d]; [done|].
  change (String.concat newline (map (λ kv, kv.1 +:+ "=" +:+ kv.2) ((k, v) :: kv :: d)))
    with ((k +:+ "=" +:+ v) +:+ newline +:+
          String.concat newline (map (λ kv, kv.1 +:+ "=" +:+ kv.2) (kv :: d))).
  by rewrite IH.
Qed.

Lemma known_dec host_platform st :
  known host_platform st ∨ ¬ known host_platform st.
Proof.
  destruct host_platform as [key|].
  - destruct (host_settings st !! key) as [pl|] eqn:Hpl.
    + left. exists key. split; [done|]. by rewrite Hpl.
    + right. intros (key' & [= <-] & Hsome). rewrite Hpl in Hsome.
      by destruct Hsome.
  - right. by intros (key & ? & _).
Qed.

(** A run leaves the files it finds as they are, and writes none of them. *)
Lemma Main_keeps_files host_platform st file text :
  files st !! file = Some text →
  let st' := (Main host_platform st).2 in
  files st' !! file = Some text ∧
  file ∉ (writes (drop (length (trace st)) (trace st'))).*1.
Proof.
  intros Hfile st'. subst st'.
  destruct (known_dec host_platform st) as [(key & -> & [pl Hpl])|Hno].
  - destruct (profiles_of_run key pl st Hpl) as (st' & _ & -> & _ & Hfs & Htr & _ & _).
    cbn [snd]. split.
    + unfold files at 1. rewrite Hfs. cbn [default from_option id].
      by apply foldl_write_if_absent_lookup.
    + rewrite Htr, drop_app_length, writes_run_events.
      intros [[f t] [-> Hft]]%list_elem_of_fmap.
      apply writes_loop_events_elem in Hft as [Hnone _]. cbn [fst] in Hfile.
      by rewrite Hfile in Hnone.
  - destruct (profiles_of_unknown host_platform st Hno) as [_ ->].
    cbn [snd trace]. split; [done|].
    rewrite drop_app_length. by intros ?%elem_of_nil.
Qed.

Lemma render3_text c :
  profile_text (render3 c) =
  "[settings]
" +:+ key_value_lines (profile_settings (render3 c)) +:+ "
[options]
[build_requires]
[env]
" +:+ key_value_lines (profile_env (render3 c)) +:+ "
".
Proof.
  unfold render3, render. cbn [profile_text profile_settings profile_env].
  by rewrite !values_string_lines.
Qed.

Lemma unique_keys_with_runtime cn bn e :
  unique_keys e → NoDup (keys (settings_of (with_runtime cn bn e))).
Proof.
  intros [Hs _]. destruct (decide (visual_studio e)) as [Hvs|Hvs].
  - unfold settings_of at 1. rewrite settings_of_with_runtime by done.
    by apply NoDup_keys_setitem.
  - by rewrite with_runtime_other.
Qed.

(** ** More on dictionaries *)

Lemma NoDup_keys_update d e : NoDup (keys d) → NoDup (keys (dict_update d e)).
Proof.
  unfold dict_update. revert d. induction e as [|[k v] e IH]; intros d Hd; [done|].
  simpl. by apply IH, NoDup_keys_setitem.
Qed.

Lemma NoDup_keys_merge3 d1 d2 d3 : NoDup (keys (merge3 d1 d2 d3)).
Proof. unfold merge3. do 3 apply NoDup_keys_update. apply NoDup_nil_2. Qed.

(** ** More on the directory *)

Lemma first_named_cons n r rs :
  first_named n (r :: rs) =
  if decide (profile_name r = n) then Some r else first_named n rs.
Proof. unfold first_named. rewrite filter_cons. by case_decide. Qed.

(** The directory after the loop, name by name. *)
Lemma foldl_write_if_absent_first rs fs n :
  foldl write_if_absent fs rs !! n =
  match fs !! n with
  | Some text => Some text
  | None => profile_text <$> first_named n rs
  end.
Proof.
  revert fs. induction rs as [|r rs IH]; intros fs.
  - simpl. by destruct (fs !! n).
  - simpl. rewrite IH, first_named_cons. unfold write_if_absent.
    destruct (decide (is_Some (fs !! profile_name r))) as [Hin|Hin].
    + destruct (fs !! n) as [t|] eqn:Hn; [done|].
      case_decide as Heq; [|done]. subst n. rewrite Hn in Hin. by destruct Hin.
    + destruct (decide (profile_name r = n)) as [<-|Hne].
      * rewrite lookup_insert_eq. apply eq_None_not_Some in Hin. by rewrite Hin.
      * by rewrite lookup_insert_ne.
Qed.

Lemma first_named_elem n r rs : r ∈ rs → profile_name r = n → is_Some (first_named n rs).
Proof.
  intros Hin Hn. unfold first_named.
  destruct (filter (λ r, profile_name r = n) rs) as [|r' l] eqn:Hf; [|by eexists].
  assert (Hr : r ∈ filter (λ r, profile_name r = n) rs) by (by apply list_elem_of_filter).
  rewrite Hf in Hr. by apply elem_of_nil in Hr.
Qed.

(** After the loop every profile has its file. *)
Lemma foldl_write_if_absent_present rs fs :
  Forall (λ r, is_Some (foldl write_if_absent fs rs !! profile_name r)) rs.
Proof.
  apply Forall_forall. intros r Hr. rewrite foldl_write_if_absent_first.
  destruct (fs !! profile_name r); [by eexists|].
  destruct (first_named_elem (profile_name r) r rs Hr eq_refl) as [r' ->]. by eexists.
Qed.

(** When every profile has its file the loop only prints. *)
Lemma loop_events_present rs fs :
  Forall (λ r, is_Some (fs !! profile_name r)) rs →
  writes (loop_events fs rs) = [] ∧ foldl write_if_absent fs rs = fs.
Proof.
  induction 1 as [|r rs Hr Hrs IH]; [done|].
  simpl. rewrite writes_app, writes_profile_events. unfold write_if_absent.
  rewrite !decide_True by done. done.
Qed.

(** The loop never writes a name twice. *)
Lemma writes_loop_events_NoDup rs fs : NoDup (writes (loop_events fs rs)).*1.
Proof.
  revert fs. induction rs as [|r rs IH]; intros fs; [apply NoDup_nil_2|].
  simpl. rewrite writes_app, writes_profile_events, fmap_app.
  case_decide as Hin; [apply IH|].
  simpl. apply NoDup_cons. split; [|apply IH].
  intros [[f t] [Hf Hft]]%list_elem_of_fmap. simpl in Hf. subst f.
  apply writes_loop_events_elem in Hft as [Hnone _].
  unfold write_if_absent in Hnone. rewrite decide_False in Hnone by done.
  by rewrite lookup_insert_eq in Hnone.
Qed.

Lemma length_writes_loop_events rs fs :
  length (writes (loop_events fs rs)) ≤ length rs.
Proof.
  revert fs. induction rs as [|r rs IH]; intros fs; [done|].
  simpl. rewrite writes_app, writes_profile_events, length_app.
  specialize (IH (write_if_absent fs r)). case_decide; simpl; lia.
Qed.

(** ** More on the tables *)

Lemma visual_studio_settings e :
  visual_studio e → ∃ s, settings e = Some s ∧
                         dict_get_default "compiler" "" s = "Visual Studio".
Proof.
  unfold visual_studio, settings_of. destruct (settings e) as [s|]; [by eexists|done].
Qed.

Lemma visual_studio_with_runtime cn bn e :
  visual_studio (with_runtime cn bn e) ↔ visual_studio e.
Proof.
  destruct (decide (visual_studio e)) as [Hvs|Hvs].
  - split; [done|]. intros _. unfold visual_studio, settings_of.
    rewrite settings_of_with_runtime by done. simpl.
    by rewrite compiler_setitem_runtime.
  - by rewrite with_runtime_other.
Qed.

(** What [sim] lets an entry differ in: the runtime of Visual Studio. *)
Lemma sim_visual_studio e0 e : sim e0 e → visual_studio e ↔ visual_studio e0.
Proof.
  intros Hsim. rewrite <-(visual_studio_with_runtime "" "" e), (Hsim "" "").
  apply visual_studio_with_runtime.
Qed.

Lemma sim_other e0 e : sim e0 e → ¬ visual_studio e0 → e = e0.
Proof.
  intros Hsim Hvs.
  assert (Hvs' : ¬ visual_studio e) by (by rewrite (sim_visual_studio e0 e Hsim)).
  rewrite <-(with_runtime_other "" "" e Hvs'), (Hsim "" "").
  by apply with_runtime_other.
Qed.

Lemma sim_dict_get e0 e k :
  sim e0 e → k ≠ "compiler.runtime" →
  dict_get k (settings_of e) = dict_get k (settings_of e0).
Proof.
  intros Hsim Hk. destruct (decide (visual_studio e0)) as [Hvs|Hvs].
  - assert (Hvs' : visual_studio e) by (by rewrite (sim_visual_studio e0 e Hsim)).
    pose proof (settings_of_with_runtime "" "" e Hvs') as He.
    rewrite (Hsim "" ""), (settings_of_with_runtime "" "" e0 Hvs) in He.
    injection He as He.
    rewrite <-(dict_get_setitem_ne "compiler.runtime" k (runtime_value "" "")
                 (settings_of e)) by done.
    rewrite <-He. by apply dict_get_setitem_ne.
  - by rewrite (sim_other e0 e Hsim Hvs).
Qed.

Lemma update_entry_host_settings host r f st other :
  other ≠ host →
  host_settings (update_entry host r f st) !! other = host_settings st !! other.
Proof.
  intros Hne. destruct r as [[] i]; unfold update_entry; simpl; [| |done];
    by rewrite lookup_alter_ne.
Qed.

Lemma update_entry_host_is_Some host r f st :
  is_Some (host_settings (update_entry host r f st) !! host) ↔
  is_Some (host_settings st !! host).
Proof.
  destruct r as [[] i]; unfold update_entry; simpl; [| |done];
    rewrite lookup_alter_eq; by rewrite fmap_is_Some.
Qed.

(** A property of states that the rounds of one iteration keep is kept by
    the loop. *)
Lemma for_each_generate_profile_preserves (I : state → Prop) host pl0 bs0 ts cs st rs st' :
  (∀ st r f, I st → I (update_entry host r f st)) →
  (∀ st r, I st → I (record_profile r st)) →
  tables_sim host pl0 bs0 st →
  is_Some (profiles st) →
  Forall2 (λ t c, combination pl0 bs0 t = Some c) ts cs →
  I st →
  for_each ts (generate_profile host) st = (Ok rs, st') →
  I st'.
Proof.
  intros Hupd Hrec Hsim Hdir Hts. revert st rs Hsim Hdir.
  induction Hts as [|t c0 ts cs Ht Hts IH]; intros st rs Hsim Hdir HI Hrun.
  - simpl in Hrun. by injection Hrun as _ <-.
  - destruct (state_combination_sim _ _ _ _ _ _ Hsim Ht) as (c & Hc & _).
    simpl in Hrun. unfold mbind at 1, M_bind at 1 in Hrun.
    rewrite (generate_profile_run host t st c Hc Hdir) in Hrun.
    set (st1 := record_profile (render3 c)
                  (fix_entries host t (name c.1.2) (name c.2) st)) in *.
    unfold mbind, M_bind in Hrun.
    destruct (for_each ts (generate_profile host) st1) as [[rs1|e] st2] eqn:Hrest;
      [|done].
    unfold mret, M_ret in Hrun. injection Hrun as _ <-.
    apply (IH st1 rs1); [| | |done].
    + by apply tables_sim_record_profile, tables_sim_fix_entries.
    + by eexists.
    + subst st1. apply Hrec. unfold fix_entries. by do 3 apply Hupd.
Qed.

(** The tables after a run for a platform of the table: up to [sim] those
    the run started with, under the same keys. *)
Lemma Main_tables host pl st :
  host_settings st !! host = Some pl →
  ∃ st',
    Main (Some host) st = (Ok tt, st') ∧
    tables_sim host pl (build_types st) st' ∧
    is_Some (host_settings st' !! host) ∧
    ∀ other, other ≠ host → host_settings st' !! other = host_settings st !! other.
Proof.
  intros Hpl.
  destruct (profiles_of_run host pl st Hpl) as (st' & Hrun & HMain & Hsim & _).
  exists st'. split; [done|]. split; [done|].
  unfold profiles_of, mbind, M_bind in Hrun.
  rewrite (prepare_run host pl st Hpl) in Hrun.
  set (st1 := State _ _ _ _ _ _) in Hrun.
  unfold generate_profiles in Hrun. unfold_M. unfold pool_list in Hrun.
  change (host_settings st1) with (host_settings st) in Hrun.
  change (build_types st1) with (build_types st) in Hrun.
  rewrite Hpl in Hrun. cbn [fmap option_fmap option_map default from_option] in Hrun.
  refine (for_each_generate_profile_preserves
            (λ s, is_Some (host_settings s !! host) ∧
                  ∀ other, other ≠ host →
                           host_settings s !! other = host_settings st !! other)
            host pl (build_types st) _
            (product (os_arch pl) (compilers pl) (build_types st))
            st1 _ st' _ _ _ _ _ _ Hrun).
  - intros s r f [Hsome Hother]. split.
    + by apply update_entry_host_is_Some.
    + intros other Hne. rewrite update_entry_host_settings by done. by apply Hother.
  - by intros s r [? ?].
  - by apply (tables_sim_start host pl st1).
  - by eexists.
  - apply product_combination.
  - split; [exists pl; exact Hpl|done].
Qed.

(** ** More on the client and the trace *)

Lemma registered_remotes_after registry : registered (remotes_after registry).
Proof.
  unfold remotes_after. case_decide as Hf.
  - exists (Remote REMOTE REMOTE_URL). split; [|done].
    apply elem_of_app. right. by apply list_elem_of_singleton.
  - unfold found_none in Hf.
    destruct (filter (λ x, remote_name x = REMOTE) registry) as [|x l] eqn:Hfilter;
      [done|].
    assert (Hx : x ∈ filter (λ x, remote_name x = REMOTE) registry)
      by (rewrite Hfilter; apply elem_of_cons; by left).
    apply list_elem_of_filter in Hx as [Hname Hx]. by exists x.
Qed.

Lemma remotes_after_registered registry :
  registered registry → remotes_after registry = registry.
Proof.
  intros Hreg. unfold remotes_after. rewrite decide_False; [done|].
  by rewrite found_none_registered; intros ?.
Qed.

Lemma remote_events_registered registry n u :
  registered registry → ConanRemoteAdd n u ∉ remote_events registry.
Proof. intros Hreg (_ & _ & ?)%remote_add_remote_events. done. Qed.

(** The loop prints and writes, and does nothing else. *)
Lemma loop_events_kinds rs fs ev :
  ev ∈ loop_events fs rs → (∃ line, ev = Print line) ∨ (∃ f t, ev = WriteFile f t).
Proof.
  revert fs. induction rs as [|r rs IH]; intros fs; simpl.
  - by intros ?%elem_of_nil.
  - rewrite elem_of_app. intros [Hev|Hev]; [|by eapply IH].
    unfold profile_events in Hev. case_decide.
    + apply list_elem_of_singleton in Hev as ->. left. by eexists.
    + apply elem_of_cons in Hev as [->|Hev]; [left; by eexists|].
      apply list_elem_of_singleton in Hev as ->. right. by eexists _, _.
Qed.

Lemma Forall2_sim_eq l l' :
  Forall (λ e, ¬ visual_studio e) l → Forall2 sim l l' → l' = l.
Proof.
  intros Hl Hsim. induction Hsim as [|e0 e l l' He Hsim IH]; [done|].
  apply Forall_cons in Hl as [Hvs Hl]. f_equal; [by apply sim_other|by apply IH].
Qed.

Lemma dict_get_merge3 k d1 d2 d3 :
  NoDup (keys d2) → NoDup (keys d3) →
  dict_get k (merge3 d1 d2 d3) =
  match dict_get k d3 with
  | Some v => Some v
  | None => match dict_get k d2 with
            | Some v => Some v
            | None => dict_get k (reverse d1)
            end
  end.
Proof.
  intros H2 H3. unfold merge3.
  rewrite !dict_get_update_unique by done. rewrite dict_get_update. simpl.
  by destruct (dict_get k d3), (dict_get k d2), (dict_get k (reverse d1)).
Qed.

Lemma product_nil {A B C} (a : list A) (b : list B) (c : list C) :
  a = [] ∨ b = [] ∨ c = [] → product a b c = [].
Proof.
  intros H. apply length_zero_iff_nil. rewrite length_product.
  destruct H as [-> | [-> | ->]]; simpl; lia.
Qed.

(** ** Reading a block back *)

Lemma has_char_app c s t : has_char c (s +:+ t) = has_char c s || has_char c t.
Proof. induction s as [|a s IH]; simpl; [done|]. by rewrite IH, orb_assoc. Qed.

Lemma lines_of_one s : has_char "010"%char s = false → lines_of s = [s].
Proof.
  induction s as [|a s IH]; simpl; [done|].
  intros [Ha Hs]%orb_false_elim. apply bool_decide_eq_false in Ha.
  rewrite decide_False by done. by rewrite IH.
Qed.

Lemma lines_of_app s t :
  has_char "010"%char s = false →
  lines_of (s +:+ String "010"%char t) = s :: lines_of t.
Proof.
  induction s as [|a s IH]; simpl; [done|].
  intros [Ha Hs]%orb_false_elim. apply bool_decide_eq_false in Ha.
  rewrite decide_False by done. by rewrite IH.
Qed.

Lemma cut_app c k v :
  has_char c k = false → cut c (k +:+ String c v) = (k, Some v).
Proof.
  induction k as [|a k IH]; simpl.
  - intros _. by rewrite decide_True.
  - intros [Ha Hk]%orb_false_elim. apply bool_decide_eq_false in Ha.
    rewrite decide_False by done. by rewrite IH.
Qed.

Lemma read_item_line k v :
  has_char "="%char k = false → read_item (k +:+ "=" +:+ v) = Some (k, v).
Proof.
  intros Hk. unfold read_item.
  change (k +:+ "=" +:+ v) with (k +:+ String "="%char v). by rewrite cut_app.
Qed.

Lemma line_nonempty k v rest : (k +:+ "=" +:+ v) +:+ rest ≠ "".
Proof. by destruct k. Qed.

Lemma key_value_lines_nonempty kv d : key_value_lines (kv :: d) ≠ "".
Proof.
  destruct kv as [k v], d as [|kv' d]; simpl.
  - pose proof (line_nonempty k v "") as H. by destruct k.
  - apply line_nonempty.
Qed.

Lemma has_char_line k v :
  has_char "010"%char k = false → has_char "010"%char v = false →
  has_char "010"%char (k +:+ "=" +:+ v) = false.
Proof.
  intros Hk Hv. change (k +:+ "=" +:+ v) with (k +:+ String "="%char v).
  rewrite has_char_app, Hk. simpl. by rewrite Hv.
Qed.

(** Reading undoes writing. *)
Lemma read_values_string d : readable d → read_values (values_string d) = d.
Proof.
  rewrite values_string_lines. unfold read_values.
  induction 1 as [|[k v] d (Hk & Heq & Hv) Hd IH]; [done|].
  rewrite decide_False by apply key_value_lines_nonempty.
  destruct d as [|kv' d].
  - simpl. rewrite lines_of_one by (by apply has_char_line). simpl.
    by rewrite read_item_line.
  - rewrite decide_False in IH by apply key_value_lines_nonempty.
    change (key_value_lines ((k, v) :: kv' :: d))
      with ((k +:+ "=" +:+ v) +:+ String "010"%char (key_value_lines (kv' :: d))).
    rewrite lines_of_app by (by apply has_char_line).
    cbn [omap list_omap]. fold (omap read_item (lines_of (key_value_lines (kv' :: d)))).
    rewrite read_item_line by done. by rewrite IH.
Qed.

(** ** The order of the permutations *)

Lemma lookup_bind_uniform {A B} (f : A → list B) n (l : list A) i j x :
  (∀ y, length (f y) = n) → l !! i = Some x → j < n →
  (l ≫= f) !! (i * n + j) = f x !! j.
Proof.
  intros Hlen. revert i. induction l as [|y l IH]; intros i Hi Hj; [done|].
  rewrite bind_cons. destruct i as [|i]; simpl in Hi.
  - injection Hi as ->. simpl. apply lookup_app_l. by rewrite Hlen.
  - rewrite lookup_app_r by (rewrite Hlen; simpl; lia).
    rewrite Hlen. replace (S i * n + j - n) with (i * n + j) by (simpl; lia).
    by apply IH.
Qed.

Lemma length_bind_uniform {A B} (f : A → list B) n (l : list A) :
  (∀ y, length (f y) = n) → length (l ≫= f) = length l * n.
Proof.
  intros Hlen. induction l as [|y l IH]; [done|].
  rewrite bind_cons, length_app, Hlen, IH. simpl. lia.
Qed.

(** [itertools.product] by position: the last list varies fastest. *)
Lemma product_lookup {A B C} (a : list A) (b : list B) (c : list C) i j k x y z :
  a !! i = Some x → b !! j = Some y → c !! k = Some z →
  product a b c !! ((i * length b + j) * length c + k) = Some (x, y, z).
Proof.
  intros Hx Hy Hz. unfold product.
  assert (Hj : j < length b) by (by eapply lookup_lt_Some).
  assert (Hk : k < length c) by (by eapply lookup_lt_Some).
  assert (Hc : ∀ (x' : A) (y' : B), length (c ≫= λ z', [(x', y', z')]) = length c).
  { intros x' y'. rewrite (length_bind_uniform _ 1) by done. lia. }
  assert (Hb : ∀ x' : A, length (b ≫= λ y', c ≫= λ z', [(x', y', z')])
                          = length b * length c).
  { intros x'. by apply length_bind_uniform. }
  replace ((i * length b + j) * length c + k)
    with (i * (length b * length c) + (j * length c + k)) by lia.
  rewrite (lookup_bind_uniform _ (length b * length c) a i _ x) by (done || nia).
  rewrite (lookup_bind_uniform _ (length c) b j _ y) by done.
  replace k with (k * 1 + 0) by lia.
  by rewrite (lookup_bind_uniform _ 1 c k 0 z) by (done || lia).
Qed.

(** ** The command line *)

Lemma parse_known_args_exit n : ∀ args platform extras e,
  length args ≤ n →
  parse_known_args platform extras args = Raise e →
  e = SystemExit 0 ∨ e = SystemExit 2.
Proof.
  induction n as [|n IH]; intros [|w args] platform extras e Hlen; simpl in Hlen;
    try lia; try done.
  destruct w as [| |text]; cbn [parse_known_args].
  - destruct args as [|[| |value] args']; try (intros [= <-]; by right).
    apply IH. simpl in Hlen. lia.
  - intros [= <-]. by left.
  - apply IH. lia.
Qed.

Lemma parse_known_args_nothing n : ∀ args platform extras,
  length args ≤ n →
  parse_known_args platform extras args = Ok (None, []) →
  args = [] ∧ platform = None ∧ extras = [].
Proof.
  induction n as [|n IH]; intros [|w args] platform extras Hlen; simpl in Hlen;
    try lia; try (by intros [= -> ->]).
  destruct w as [| |text]; cbn [parse_known_args]; [|done|].
  - destruct args as [|[| |value] args']; try done.
    intros Hparse. apply IH in Hparse as (_ & [=] & _). simpl in Hlen. lia.
  - intros Hparse. apply IH in Hparse as (_ & _ & Hextras); [|lia].
    by apply app_nil in Hextras as [_ [=]].
Qed.

(** The parser leaves with status 0, for the help, or 2, for an error. *)
Lemma parse_args_exit args e :
  parse_args args = Raise e → e = SystemExit 0 ∨ e = SystemExit 2.
Proof.
  unfold parse_args.
  destruct (parse_known_args None [] args) as [[platform [|x extras]]|e'] eqn:Hparse.
  - done.
  - intros [= <-]. by right.
  - intros [= <-]. by eapply parse_known_args_exit.
Qed.

(** The platform is missing exactly when the command line is empty. *)
Lemma parse_args_None args : parse_args args = Ok None ↔ args = [].
Proof.
  split; [|by intros ->]. unfold parse_args.
  destruct (parse_known_args None [] args) as [[platform [|x extras]]|e'] eqn:Hparse;
    try done.
  intros [= ->]. by eapply parse_known_args_nothing in Hparse as [? _].
Qed.

Lemma script_run args st :
  script args st =
    match parse_args args with
    | Ok host_platform => Main host_platform st
    | Raise e => (Raise e, st)
    end.
Proof.
  unfold script, of_result, mbind, M_bind. by destruct (parse_args args).
Qed.

(** ** Blocks that can be read back *)

Lemma readable_setitem k v d :
  has_char "010"%char k = false → has_char "="%char k = false →
  has_char "010"%char v = false →
  readable d → readable (dict_setitem k v d).
Proof.
  intros Hk1 Hk2 Hv. unfold readable.
  induction d as [|[k' v'] d IH]; intros Hd; simpl.
  - by repeat constructor.
  - apply Forall_cons in Hd as [Hkv Hd]. case_decide.
    + by constructor.
    + constructor; [done|by apply IH].
Qed.

Lemma readable_update d e : readable d → readable e → readable (dict_update d e).
Proof.
  unfold dict_update. revert d.
  induction e as [|[k v] e IH]; intros d Hd He; [done|].
  apply Forall_cons in He as [(Hk1 & Hk2 & Hv) He]. simpl.
  apply IH; [|done]. by apply readable_setitem.
Qed.

Lemma readable_merge3 d1 d2 d3 :
  readable d1 → readable d2 → readable d3 → readable (merge3 d1 d2 d3).
Proof.
  intros H1 H2 H3. unfold merge3.
  repeat apply readable_update; try done. constructor.
Qed.

Lemma readable_with_runtime cn bn e :
  readable (settings_of e) → readable (settings_of (with_runtime cn bn e)).
Proof.
  intros He. destruct (decide (visual_studio e)) as [Hvs|Hvs].
  - unfold settings_of at 1. rewrite settings_of_with_runtime by done.
    cbn [default from_option id]. apply readable_setitem; try done.
    unfold runtime_value. by repeat case_decide.
  - by rewrite with_runtime_other.
Qed.

Lemma readable_render o c b :
  readable_entry o → readable_entry c → readable_entry b →
  readable (profile_settings (render o c b)) ∧ readable (profile_env (render o c b)).
Proof.
  intros [Hos Hoe] [Hcs Hce] [Hbs Hbe]. unfold render.
  cbn [profile_settings profile_env].
  split; apply readable_merge3; try done; by apply readable_with_runtime.
Qed.

(** ** The claims *)

(** C1.  For a platform of the table of the source and an empty profiles
    directory, a run writes one file per element of the Cartesian product of
    the OS/architecture variants, the compiler variants and the build
    types: the written names are those of the product, in its order, without
    repetition, and there are |os_arch| * |compilers| * |BUILD_TYPES| of
    them. *)
Theorem C1_one_write_per_combination host pl path dir registry :
  HOST_SETTINGS !! host = Some pl →
  default ∅ dir = ∅ →
  let run := Main (Some host) (boot path dir registry) in
  let combos := product (os_arch pl) (compilers pl) BUILD_TYPES in
  run.1 = Ok tt ∧
  (writes (trace run.2)).*1 = (λ c, combination_name c.1.1 c.1.2 c.2) <$> combos ∧
  NoDup ((writes (trace run.2)).*1) ∧
  length (writes (trace run.2)) =
    length (os_arch pl) * length (compilers pl) * length BUILD_TYPES.
Proof.
  intros Hpl Hdir run combos.
  destruct (profiles_of_run host pl (boot path dir registry) Hpl)
    as (st' & _ & HMain & _ & _ & Htr & _ & _).
  subst run. rewrite HMain. cbn [fst snd]. rewrite Htr.
  rewrite writes_app, writes_run_events. cbn [boot trace build_types].
  change (writes []) with (@nil (string * string)). cbn [app].
  unfold files. cbn [boot profiles]. rewrite Hdir.
  rewrite writes_loop_events_fresh;
    [|by apply (static_names_NoDup host)
     |apply Forall_forall; intros; apply lookup_empty].
  fold combos.
  assert (Hnames : ((λ r, (profile_name r, profile_text r)) <$> (render3 <$> combos)).*1
                   = (λ c, combination_name c.1.1 c.1.2 c.2) <$> combos).
  { rewrite <-!list_fmap_compose. by apply list_fmap_ext. }
  split_and!.
  - done.
  - done.
  - rewrite Hnames.
    replace ((λ c, combination_name c.1.1 c.1.2 c.2) <$> combos)
      with (profile_name <$> (render3 <$> combos))
      by (rewrite <-list_fmap_compose; by apply list_fmap_ext).
    by apply (static_names_NoDup host).
  - rewrite !length_fmap. apply length_product.
Qed.

Lemma C1_witness :
  let run := Main (Some "Linux") (boot "/home/user/.conan/profiles" None []) in
  run.1 = Ok tt ∧
  (writes (trace run.2)).*1 =
    ["linux-x86_64-clang-debug"; "linux-x86_64-clang-release";
     "linux-x86_64-gcc-debug"; "linux-x86_64-gcc-release"] ∧
  length (writes (trace run.2)) = 1 * 2 * 2.
Proof.
  destruct (C1_one_write_per_combination "Linux" Linux
              "/home/user/.conan/profiles" None [] eq_refl eq_refl)
    as (Hok & Hnames & _ & Hlen).
  split_and!; [exact Hok|exact Hnames|exact Hlen].
Defined.

(** C2.  Take any tables in which no os/arch variant and no build type has
    Visual Studio for its compiler or a runtime of its own, and in which the
    settings of a compiler variant have no key twice; the tables of the
    source are such.  In a run, every permutation whose compiler settings
    have ['compiler'] equal to ['Visual Studio'] is rendered with
    ['compiler.runtime'] equal to [MT] or [MTd] when the compiler variant is
    named [msvc_mt], to [MD] or [MDd] otherwise, the [d] being there exactly
    for the build type named [debug].  Every other permutation is rendered
    with the settings of the tables, merged unchanged, so that its
    ['compiler.runtime'], if any, is the one its compiler variant has in the
    table. *)
Theorem C2_visual_studio_runtime host pl st :
  host_settings st !! host = Some pl →
  Forall (λ e, ¬ visual_studio e ∧
               dict_get "compiler.runtime" (settings_of e) = None)
         (os_arch pl ++ build_types st) →
  Forall (λ e, NoDup (keys (settings_of e))) (compilers pl) →
  ∃ rs st',
    profiles_of (Some host) st = (Ok rs, st') ∧
    Main (Some host) st = (Ok tt, st') ∧
    Forall2 (λ c r,
        (visual_studio c.1.2 →
           dict_get "compiler.runtime" (profile_settings r) =
           Some (if decide (name c.1.2 = "msvc_mt")
                 then (if decide (name c.2 = "debug") then "MTd" else "MT")
                 else (if decide (name c.2 = "debug") then "MDd" else "MD"))) ∧
        (¬ visual_studio c.1.2 →
           profile_settings r =
             merge3 (settings_of c.1.1) (settings_of c.1.2) (settings_of c.2) ∧
           dict_get "compiler.runtime" (profile_settings r) =
             dict_get "compiler.runtime" (settings_of c.1.2)))
      (product (os_arch pl) (compilers pl) (build_types st)) rs.
Proof.
  intros Hpl Hplain Hcs. apply Forall_app in Hplain as [Hos Hbs].
  destruct (profiles_of_run host pl st Hpl) as (st' & Hrun & HMain & _).
  eexists _, st'. split_and!; [exact Hrun|exact HMain|].
  apply Forall2_product_render. intros o c b Ho Hc Hb. cbn [fst snd].
  apply (proj1 (Forall_forall _ _) Hos) in Ho as [Ho Hrto].
  apply (proj1 (Forall_forall _ _) Hcs) in Hc.
  apply (proj1 (Forall_forall _ _) Hbs) in Hb as [Hb Hrt].
  split.
  - intros Hvs. rewrite <-runtime_value_cases. by apply render_runtime.
  - intros Hvs. rewrite render_plain by done. split; [done|].
    unfold merge3. rewrite dict_get_update_absent by done.
    rewrite dict_get_update_unique by done.
    rewrite dict_get_update_absent by done.
    by destruct (dict_get "compiler.runtime" (settings_of c)).
Qed.

Lemma C2_witness :
  let msvc_md := Entry "msvc_md" (Some [("compiler", "Visual Studio");
                                        ("compiler.version", "16")]) None in
  let other := State (<["Windows" := Platform [windows_x86_64] [msvc_md]]> HOST_SETTINGS)
                     BUILD_TYPES "/home/user/.conan/profiles" None [] [] in
  (∃ rs st',
     profiles_of (Some "Windows") (boot "/home/user/.conan/profiles" None [])
       = (Ok rs, st') ∧
     (dict_get "compiler.runtime" ∘ profile_settings) <$> rs
       = [Some "MTd"; Some "MT"]) ∧
  (∃ rs st',
     profiles_of (Some "Windows") other = (Ok rs, st') ∧
     (dict_get "compiler.runtime" ∘ profile_settings) <$> rs
       = [Some "MDd"; Some "MD"]).
Proof.
  intros msvc_md other.
  assert (Hplain : Forall (λ e, ¬ visual_studio e ∧
                    dict_get "compiler.runtime" (settings_of e) = None)
                    (os_arch Windows ++ BUILD_TYPES)).
  { apply (bool_decide_unpack _). by vm_compute. }
  assert (Hcs : Forall (λ e, NoDup (keys (settings_of e))) (compilers Windows)).
  { apply (bool_decide_unpack _). by vm_compute. }
  assert (Hcs' : Forall (λ e, NoDup (keys (settings_of e))) [msvc_md]).
  { apply (bool_decide_unpack _). by vm_compute. }
  split.
  - destruct (C2_visual_studio_runtime "Windows" Windows
                (boot "/home/user/.conan/profiles" None []) eq_refl Hplain Hcs)
      as (rs & st' & Hrun & _ & Hall).
    exists rs, st'. split; [exact Hrun|].
    apply Forall2_cons_inv_l in Hall as (r1 & rs1 & [Hdebug _] & Hall & ->).
    apply Forall2_cons_inv_l in Hall as (r2 & rs2 & [Hrelease _] & Hall & ->).
    apply Forall2_nil_inv_l in Hall as ->.
    cbn [fmap list_fmap compose]. rewrite (Hdebug eq_refl), (Hrelease eq_refl).
    reflexivity.
  - destruct (C2_visual_studio_runtime "Windows" (Platform [windows_x86_64] [msvc_md])
                other eq_refl Hplain Hcs')
      as (rs & st' & Hrun & _ & Hall).
    exists rs, st'. split; [exact Hrun|].
    apply Forall2_cons_inv_l in Hall as (r1 & rs1 & [Hdebug _] & Hall & ->).
    apply Forall2_cons_inv_l in Hall as (r2 & rs2 & [Hrelease _] & Hall & ->).
    apply Forall2_nil_inv_l in Hall as ->.
    cbn [fmap list_fmap compose]. rewrite (Hdebug eq_refl), (Hrelease eq_refl).
    reflexivity.
Defined.

(** C3, as stated, fails for the debug profile of Visual Studio: its
    settings block has [compiler.runtime=MTd], the ordered union of the three
    settings mappings of the tables has [compiler.runtime=MT]. *)
Lemma C3_counterexample :
  ∃ r rs st',
    profiles_of (Some "Windows") (boot "/home/user/.conan/profiles" None [])
      = (Ok (r :: rs), st') ∧
    profile_name r = "windows-x86_64-msvc_mt-debug" ∧
    dict_get "compiler.runtime" (profile_settings r) = Some "MTd" ∧
    dict_get "compiler.runtime"
      (override (override (settings_of windows_x86_64) (settings_of msvc_mt))
                (settings_of debug)) = Some "MT" ∧
    values_string (profile_settings r) ≠
    values_string (override (override (settings_of windows_x86_64)
                                      (settings_of msvc_mt))
                            (settings_of debug)).
Proof.
  eexists _, _, _. split; [by vm_compute|].
  split_and!; [done|done|done|]. by vm_compute.
Qed.

(** C3, amended.  Take any tables whose dictionaries have no key twice and
    whose os/arch variants have no environment.  In a run, the settings
    block of a permutation is rendered from the ordered union of its three
    settings mappings, os/arch then compiler then build type, a later
    mapping winning on a shared key, where a mapping whose ['compiler'] is
    ['Visual Studio'] enters the union with its ['compiler.runtime'] set by
    the special case; the environment block is rendered from the ordered
    union of the environment mappings of the compiler and of the build
    type. *)
Theorem C3_merge_in_order host pl st :
  host_settings st !! host = Some pl →
  Forall unique_keys (os_arch pl ++ compilers pl ++ build_types st) →
  Forall (λ e, env e = None) (os_arch pl) →
  ∃ rs st',
    profiles_of (Some host) st = (Ok rs, st') ∧
    Main (Some host) st = (Ok tt, st') ∧
    Forall2 (λ c r,
        let special := with_runtime (name c.1.2) (name c.2) in
        profile_settings r =
          override (override (settings_of (special c.1.1))
                             (settings_of (special c.1.2)))
                   (settings_of (special c.2)) ∧
        profile_env r = override (env_of c.1.2) (env_of c.2) ∧
        profile_text r = profile_template (values_string (profile_settings r))
                                          (values_string (profile_env r)))
      (product (os_arch pl) (compilers pl) (build_types st)) rs.
Proof.
  intros Hpl Huniq Hos.
  destruct (profiles_of_run host pl st Hpl) as (st' & Hrun & HMain & _).
  eexists _, st'. split_and!; [exact Hrun|exact HMain|].
  rewrite !Forall_app in Huniq. destruct Huniq as (Huo & Huc & Hub).
  apply Forall2_product_render. intros o c b Ho Hc Hb. cbn [fst snd].
  apply (proj1 (Forall_forall _ _) Hos) in Ho as Henv.
  apply (proj1 (Forall_forall _ _) Huo) in Ho.
  apply (proj1 (Forall_forall _ _) Huc) in Hc.
  apply (proj1 (Forall_forall _ _) Hub) in Hb.
  unfold render. cbn [profile_settings profile_env profile_text].
  split_and!; [| |done].
  - by apply merge3_override; apply unique_keys_with_runtime.
  - rewrite merge3_override by (apply Ho || apply Hc || apply Hb).
    unfold env_of at 1. rewrite Henv. cbn [default from_option id].
    by rewrite override_nil_l.
Qed.

Lemma C3_witness :
  ∃ rs st',
    profiles_of (Some "Windows") (boot "/home/user/.conan/profiles" None []) = (Ok rs, st') ∧
    profile_settings <$> rs !! 0 =
      Some [("os", "Windows"); ("os_build", "Windows"); ("arch", "x86_64");
            ("arch_build", "x86_64"); ("compiler", "Visual Studio");
            ("compiler.version", "16"); ("compiler.runtime", "MTd");
            ("build_type", "Debug")] ∧
    profile_env <$> rs !! 0 = Some [].
Proof.
  assert (Huniq : Forall unique_keys (os_arch Windows ++ compilers Windows ++ BUILD_TYPES)).
  { apply (bool_decide_unpack _). by vm_compute. }
  assert (Hos : Forall (λ e, env e = None) (os_arch Windows)).
  { by repeat constructor. }
  destruct (C3_merge_in_order "Windows" Windows
              (boot "/home/user/.conan/profiles" None []) eq_refl Huniq Hos)
    as (rs & st' & Hrun & _ & Hall).
  exists rs, st'. split; [exact Hrun|].
  apply Forall2_cons_inv_l in Hall as (r & rs' & (Hset & Henv & _) & _ & ->).
  cbn [fst snd] in Hset, Henv. cbn [lookup list_lookup fmap option_fmap option_map].
  rewrite Hset, Henv. split; reflexivity.
Defined.

(** C4.  A second run for the same platform, in a fresh process whose tables
    [tables2] and [builds2] may differ from those of the first run, leaves
    every file that the first run left with the text it had: the file is
    neither overwritten nor written again. *)
Theorem C4_second_run_keeps_files host_platform st1 tables2 builds2 file text :
  let after1 := (Main host_platform st1).2 in
  let st2 := State tables2 builds2 (profiles_path after1) (profiles after1)
                   (remotes after1) [] in
  let after2 := (Main host_platform st2).2 in
  files after1 !! file = Some text →
  files after2 !! file = Some text ∧ file ∉ (writes (trace after2)).*1.
Proof.
  intros after1 st2 after2 Hfile.
  apply (Main_keeps_files host_platform st2 file text Hfile).
Qed.

Lemma C4_witness :
  let after1 := (Main (Some "Windows") (boot "/home/user/.conan/profiles" None [])).2 in
  let msvc_17 := with_settings [("compiler", "Visual Studio");
                                ("compiler.version", "17")] msvc_mt in
  let changed := <["Windows" := Platform [windows_x86_64] [msvc_17]]> HOST_SETTINGS in
  let st2 := State changed BUILD_TYPES (profiles_path after1) (profiles after1)
                   (remotes after1) [] in
  let after2 := (Main (Some "Windows") st2).2 in
  files after2 !! "windows-x86_64-msvc_mt-debug" =
    files after1 !! "windows-x86_64-msvc_mt-debug" ∧
  is_Some (files after1 !! "windows-x86_64-msvc_mt-debug") ∧
  "windows-x86_64-msvc_mt-debug" ∉ (writes (trace after2)).*1.
Proof.
  intros after1 msvc_17 changed st2 after2.
  destruct (files after1 !! "windows-x86_64-msvc_mt-debug") as [text|] eqn:Hfile;
    [|by vm_compute in Hfile].
  destruct (C4_second_run_keeps_files (Some "Windows")
              (boot "/home/user/.conan/profiles" None []) changed BUILD_TYPES
              "windows-x86_64-msvc_mt-debug" text Hfile) as [Hkept Hnot].
  fold after1 st2 after2 in Hkept, Hnot.
  split_and!; [exact Hkept|by eexists|exact Hnot].
Defined.

(** C5.  The registration step calls [remote_add], with the name [artyjay]
    and its URL, exactly when the client lists no remote of that name.  When
    it lists one, the step makes no call that changes the client, leaves the
    registry as it is and returns normally. *)
Theorem C5_remote_added_iff_absent st :
  ∃ events,
    register_remote st =
      (Ok tt, State (host_settings st) (build_types st) (profiles_path st)
                    (profiles st) (remotes_after (remotes st))
                    (trace st ++ events)) ∧
    (ConanRemoteAdd REMOTE REMOTE_URL ∈ events ↔ ¬ registered (remotes st)) ∧
    (¬ registered (remotes st) →
       remotes_after (remotes st) = remotes st ++ [Remote REMOTE REMOTE_URL]) ∧
    (registered (remotes st) →
       remotes_after (remotes st) = remotes st ∧
       ∀ n u, ConanRemoteAdd n u ∉ events).
Proof.
  exists (remote_events (remotes st)). split_and!.
  - apply register_remote_run.
  - rewrite remote_add_remote_events. split; [by intros (_ & _ & ?)|done].
  - intros Hno%found_none_registered. unfold remotes_after. by rewrite decide_True.
  - intros Hreg. split.
    + unfold remotes_after. rewrite decide_False; [done|].
      by rewrite found_none_registered; intros ?.
    + intros n u (_ & _ & ?)%remote_add_remote_events. done.
Qed.

Lemma C5_witness :
  let listed := boot "/home/user/.conan/profiles" None
                     [Remote "artyjay" "https://example.org/conan"] in
  let empty := boot "/home/user/.conan/profiles" None [] in
  (register_remote listed).1 = Ok tt ∧
  remotes (register_remote listed).2 = [Remote "artyjay" "https://example.org/conan"] ∧
  remotes (register_remote empty).2 = [Remote REMOTE REMOTE_URL].
Proof.
  intros listed empty.
  destruct (C5_remote_added_iff_absent listed) as (ev1 & Hrun1 & _ & _ & Hold).
  destruct (C5_remote_added_iff_absent empty) as (ev2 & Hrun2 & _ & Hnew & _).
  rewrite Hrun1, Hrun2. cbn [fst snd remotes].
  assert (Hreg : registered (remotes listed)).
  { eexists. split; [apply list_elem_of_singleton; reflexivity|reflexivity]. }
  assert (Hno : ¬ registered (remotes empty)).
  { intros (x & Hx & _). by apply elem_of_nil in Hx. }
  split; [reflexivity|]. split; [exact (proj1 (Hold Hreg))|exact (Hnew Hno)].
Defined.

(** C6, as stated, fails for the command line [-p], where the value of the
    platform is missing: the parser reports the error and leaves with
    status 2 before anything else runs, so that no lookup is made and no
    lookup error is raised. *)
Lemma C6_counterexample :
  command_line ["-p"] = Some [PlatformOption] ∧
  let run := script [PlatformOption] (boot "/home/user/.conan/profiles" None []) in
  run.1 = Raise (SystemExit 2) ∧
  (¬ ∃ key, run.1 = Raise (KeyError key)) ∧
  exit_status run.1 = 2 ∧
  trace run.2 = [].
Proof.
  split; [reflexivity|]. split_and!; [reflexivity| |reflexivity|reflexivity].
  intros [key Hkey]. discriminate Hkey.
Qed.

(** C6, amended.  The parser does not require [-p] / [--platform]: it
    accepts the empty command line, and that is the one it accepts without
    a platform.  Take a command line that does not ask for the help and
    gives no platform that is a key of the table of the source.  The exit
    status is not zero and no profile file has been written: the directory
    holds what it held.  When the parser accepts the command line, the run
    ends with the [KeyError] of the table lookup and the status is 1.  When
    it does not, the run ends in the parser with status 2, before anything
    else has happened. *)
Theorem C6_unknown_platform_fails sys_argv args path dir registry :
  command_line sys_argv = Some args →
  parse_args args ≠ Raise (SystemExit 0) →
  (∀ key, parse_args args = Ok (Some key) → HOST_SETTINGS !! key = None) →
  let run := script args (boot path dir registry) in
  exit_status run.1 ≠ 0 ∧
  writes (trace run.2) = [] ∧
  files run.2 = default ∅ dir ∧
  (∀ host_platform, parse_args args = Ok host_platform →
     run.1 = Raise (KeyError host_platform) ∧
     exit_status run.1 = 1 ∧
     (host_platform = None ↔ sys_argv = [])) ∧
  (∀ e, parse_args args = Raise e →
     run.1 = Raise (SystemExit 2) ∧
     exit_status run.1 = 2 ∧
     trace run.2 = []).
Proof.
  intros Hwords Hhelp Hno run. subst run. rewrite script_run.
  destruct (parse_args args) as [host_platform|e] eqn:Hparse.
  - assert (Hunknown : ¬ known host_platform (boot path dir registry)).
    { intros (key & -> & Hsome). cbn [boot host_settings] in Hsome.
      rewrite (Hno key eq_refl) in Hsome. by destruct Hsome. }
    destruct (profiles_of_unknown _ _ Hunknown) as [_ HMain].
    rewrite HMain. cbn [fst snd exit_status trace boot app].
    split_and!; try done. intros ? [= <-]. split_and!; try done. split.
    + intros ->. apply parse_args_None in Hparse as ->.
      destruct sys_argv as [|s l]; [done|]. unfold command_line in Hwords.
      simpl in Hwords. destruct (word_of s); simpl in Hwords; [|done].
      by destruct (mapM word_of l).
    + intros ->. injection Hwords as <-. by injection Hparse.
  - destruct (parse_args_exit args e Hparse) as [-> | ->]; [done|].
    cbn [fst snd exit_status trace boot]. split_and!; done.
Qed.

Lemma C6_witness :
  command_line [] = Some [] ∧
  parse_args [] = Ok None ∧
  let run := script [] (boot "/home/user/.conan/profiles" None []) in
  run.1 = Raise (KeyError None) ∧ exit_status run.1 = 1 ∧
  writes (trace run.2) = [].
Proof.
  assert (Hhelp : parse_args [] ≠ Raise (SystemExit 0)) by discriminate.
  assert (Hno : ∀ key, parse_args [] = Ok (Some key) → HOST_SETTINGS !! key = None)
    by (intros key Hkey; discriminate Hkey).
  destruct (C6_unknown_platform_fails [] [] "/home/user/.conan/profiles" None []
              eq_refl Hhelp Hno)
    as (_ & Hwrites & _ & Hlookup & _).
  destruct (Hlookup None eq_refl) as (Hraise & Hexit & _).
  split; [reflexivity|]. split; [reflexivity|].
  split_and!; [exact Hraise|exact Hexit|exact Hwrites].
Defined.

(** C7.  In a run for a platform of the table of the source, the name of
    the profile of a (os/arch variant, compiler variant, build type) is
    [<os/arch name>-<compiler name>-<build type name>], the names of the
    run are pairwise distinct, and a file is only ever written under the
    name of a profile of the run. *)
Theorem C7_profile_names host pl path dir registry :
  HOST_SETTINGS !! host = Some pl →
  ∃ rs st',
    profiles_of (Some host) (boot path dir registry) = (Ok rs, st') ∧
    Main (Some host) (boot path dir registry) = (Ok tt, st') ∧
    Forall2 (λ c r, profile_name r = name c.1.1 +:+ "-" +:+ name c.1.2 +:+ "-" +:+ name c.2)
            (product (os_arch pl) (compilers pl) BUILD_TYPES) rs ∧
    NoDup (profile_name <$> rs) ∧
    (writes (trace st')).*1 ⊆ profile_name <$> rs.
Proof.
  intros Hpl.
  destruct (profiles_of_run host pl (boot path dir registry) Hpl)
    as (st' & Hrun & HMain & _ & _ & Htr & _ & _).
  eexists _, st'. split_and!; [exact Hrun|exact HMain| | |].
  - cbn [boot build_types]. apply Forall2_fmap_r, Forall_Forall2_diag, Forall_forall.
    by intros [[o c] b] _.
  - by apply (static_names_NoDup host).
  - rewrite Htr, writes_app, writes_run_events. cbn [boot trace build_types].
    change (writes []) with (@nil (string * string)). cbn [app].
    intros file [[f t] [-> Hft]]%list_elem_of_fmap.
    apply writes_loop_events_elem in Hft as (_ & r & Hr & -> & _).
    cbn [fst]. by apply list_elem_of_fmap_2.
Qed.

Lemma C7_witness :
  ∃ rs st',
    profiles_of (Some "Windows") (boot "/home/user/.conan/profiles" None []) = (Ok rs, st') ∧
    profile_name <$> rs =
      ["windows-x86_64-msvc_mt-debug"; "windows-x86_64-msvc_mt-release"] ∧
    NoDup (profile_name <$> rs).
Proof.
  destruct (C7_profile_names "Windows" Windows "/home/user/.conan/profiles" None []
              eq_refl) as (rs & st' & Hrun & _ & Hnames & Hnd & _).
  exists rs, st'. split_and!; [exact Hrun| |exact Hnd].
  apply Forall2_cons_inv_l in Hnames as (r1 & rs1 & Hdebug & Hnames & ->).
  apply Forall2_cons_inv_l in Hnames as (r2 & rs2 & Hrelease & Hnames & ->).
  apply Forall2_nil_inv_l in Hnames as ->.
  cbn [fmap list_fmap]. rewrite Hdebug, Hrelease. reflexivity.
Defined.

(** C8.  For any contents of the tables, the text of every profile of a run
    is the template with its four sections in the order [settings],
    [options], [build_requires], [env]: the lines [key=value] of the merged
    settings under the first, nothing under the second and the third, the
    lines of the merged environment under the last.  What is written to a
    file is the text of the profile of that name. *)
Theorem C8_profile_text host pl st :
  host_settings st !! host = Some pl →
  ∃ rs st',
    profiles_of (Some host) st = (Ok rs, st') ∧
    Main (Some host) st = (Ok tt, st') ∧
    Forall (λ r, profile_text r =
                   "[settings]
" +:+ key_value_lines (profile_settings r) +:+ "
[options]
[build_requires]
[env]
" +:+ key_value_lines (profile_env r) +:+ "
") rs ∧
    ∀ file text,
      (file, text) ∈ writes (drop (length (trace st)) (trace st')) →
      ∃ r, r ∈ rs ∧ file = profile_name r ∧ text = profile_text r.
Proof.
  intros Hpl.
  destruct (profiles_of_run host pl st Hpl)
    as (st' & Hrun & HMain & _ & _ & Htr & _ & _).
  eexists _, st'. split_and!; [exact Hrun|exact HMain| |].
  - apply Forall_fmap, Forall_forall. intros c _. apply render3_text.
  - intros file text. rewrite Htr, drop_app_length, writes_run_events.
    by intros (_ & Hr)%writes_loop_events_elem.
Qed.

Lemma C8_witness :
  ∃ rs st',
    profiles_of (Some "Linux") (boot "/home/user/.conan/profiles" None []) = (Ok rs, st') ∧
    profile_text <$> rs !! 2 = Some "[settings]
os=Linux
os_build=Linux
arch=x86_64
arch_build=x86_64
compiler=gcc
compiler.version=10
compiler.libcxx=libstdc++11
build_type=Debug
[options]
[build_requires]
[env]
CC=gcc-10
CXX=g++-10
AR=gcc-ar-10
NM=gcc-nm-10
".
Proof.
  destruct (C8_profile_text "Linux" Linux (boot "/home/user/.conan/profiles" None [])
              eq_refl) as (rs & st' & Hrun & _ & _ & _).
  exists rs, st'. split; [exact Hrun|].
  vm_compute in Hrun. injection Hrun as <- _. reflexivity.
Defined.

(** C9, as stated, fails for the command line [-p], where the name of the
    platform is missing: the parser leaves before line 132, and a directory
    that was absent is still absent. *)
Lemma C9_counterexample :
  command_line ["-p"] = Some [PlatformOption] ∧
  let run := script [PlatformOption] (boot "/home/user/.conan/profiles" None []) in
  run.1 = Raise (SystemExit 2) ∧
  profiles run.2 = None ∧
  MakeDirs "/home/user/.conan/profiles" ∉ trace run.2.
Proof.
  split; [reflexivity|]. split_and!; [reflexivity|reflexivity|].
  cbn. apply not_elem_of_nil.
Qed.

(** C9, amended.  The profiles directory is made after the command line is
    parsed and before the platform is looked up.  Take a command line that
    gives no platform that is a key of the table of the source.  When the
    parser accepts it, the run has made the directory and then stopped at
    the lookup, so the directory exists afterwards, with the files it had,
    nothing has been written and the client has not been touched.  When
    the parser does not accept it, the run ends in the parser: the
    directory is as it was, absent if it was absent. *)
Theorem C9_directory_made_before_lookup sys_argv args path dir registry :
  command_line sys_argv = Some args →
  (∀ key, parse_args args = Ok (Some key) → HOST_SETTINGS !! key = None) →
  let run := script args (boot path dir registry) in
  (∀ host_platform, parse_args args = Ok host_platform →
     run.1 = Raise (KeyError host_platform) ∧
     trace run.2 = [Print ("Setup Conan for " +:+ str host_platform);
                    Print ("Conan profiles folder " +:+ path);
                    MakeDirs path] ∧
     profiles run.2 = Some (default ∅ dir) ∧
     remotes run.2 = registry) ∧
  (∀ e, parse_args args = Raise e →
     run.1 = Raise e ∧
     trace run.2 = [] ∧
     profiles run.2 = dir ∧
     remotes run.2 = registry).
Proof.
  intros _ Hno run. subst run. rewrite script_run.
  destruct (parse_args args) as [host_platform|e] eqn:Hparse.
  - assert (Hunknown : ¬ known host_platform (boot path dir registry)).
    { intros (key & -> & Hsome). cbn [boot host_settings] in Hsome.
      rewrite (Hno key eq_refl) in Hsome. by destruct Hsome. }
    destruct (profiles_of_unknown _ _ Hunknown) as [_ HMain].
    rewrite HMain. cbn [fst snd]. split; [|done].
    intros ? [= <-]. split_and!; done.
  - split; [done|]. intros ? [= <-]. split_and!; done.
Qed.

Lemma C9_witness :
  command_line ["--platform"; "Darwin"] = Some [PlatformOption; Plain "Darwin"] ∧
  let run := script [PlatformOption; Plain "Darwin"]
               (boot "/home/user/.conan/profiles" None []) in
  run.1 = Raise (KeyError (Some "Darwin")) ∧
  profiles run.2 = Some ∅ ∧
  remotes run.2 = [].
Proof.
  assert (Hno : ∀ key, parse_args [PlatformOption; Plain "Darwin"] = Ok (Some key) →
                       HOST_SETTINGS !! key = None)
    by (intros key [= <-]; reflexivity).
  destruct (C9_directory_made_before_lookup ["--platform"; "Darwin"]
              [PlatformOption; Plain "Darwin"]
              "/home/user/.conan/profiles" None [] eq_refl Hno)
    as (Hlookup & _).
  destruct (Hlookup (Some "Darwin") eq_refl) as (Hraise & _ & Hdir & Hremotes).
  split; [reflexivity|]. split_and!; [exact Hraise|exact Hdir|exact Hremotes].
Defined.

(** C10.  Let the body of the loop run over any sequence of permutations
    of the tables, repeated or reordered at will, ending with one whose
    compiler variant is Visual Studio.  The special case has written into
    the table itself: the settings that the table holds for that compiler
    variant are now its settings with ['compiler.runtime'] replaced by the
    value for that last permutation.  All the same each profile of the
    sequence is the one rendered from the entries the tables had at the
    start, and, when no build type is Visual Studio or has a runtime of its
    own and the settings of a compiler variant have no key twice, its
    ['compiler.runtime'] is the value for its own compiler variant name and
    build type name: what earlier permutations left in the table does not
    show. *)
Theorem C10_runtime_written_to_table host pl st ts t cs c :
  host_settings st !! host = Some pl →
  is_Some (profiles st) →
  Forall2 (λ t c, combination pl (build_types st) t = Some c) (ts ++ [t]) (cs ++ [c]) →
  visual_studio c.1.2 →
  Forall (λ e, NoDup (keys (settings_of e))) (compilers pl) →
  Forall (λ e, ¬ visual_studio e ∧
               dict_get "compiler.runtime" (settings_of e) = None)
         (build_types st) →
  ∃ rs st' c',
    for_each (ts ++ [t]) (generate_profile host) st = (Ok rs, st') ∧
    pool_list host Compilers st' !! t.1.2 = Some c' ∧
    settings c' = Some (dict_setitem "compiler.runtime"
                          (runtime_value (name c.1.2) (name c.2))
                          (settings_of c.1.2)) ∧
    rs = render3 <$> (cs ++ [c]) ∧
    Forall2 (λ c r,
        visual_studio c.1.2 →
        dict_get "compiler.runtime" (profile_settings r) =
        Some (runtime_value (name c.1.2) (name c.2)))
      (cs ++ [c]) rs.
Proof.
  intros Hpl Hdir Hall Hvs Hcs Hbs.
  assert (Hts : Forall2 (λ t c, combination pl (build_types st) t = Some c) ts cs ∧
                combination pl (build_types st) t = Some c).
  { apply Forall2_app_inv_l in Hall as (cs1 & cs2 & Hts & Ht & Heq).
    apply Forall2_cons_inv_l in Ht as (c2 & cs3 & Hc2 & Hnil & Hcs2).
    apply Forall2_nil_inv_l in Hnil. subst cs2 cs3.
    apply app_inj_tail in Heq as [-> ->]. done. }
  destruct Hts as [Hts Ht].
  destruct (for_each_generate_profile host pl (build_types st) ts cs st
              (tables_sim_start host pl st Hpl) Hdir Hts)
    as (st1 & Hrun1 & Hsim1 & Hfs1 & _).
  destruct (state_combination_sim _ _ _ _ _ _ Hsim1 Ht)
    as (c1 & Hc1 & Ho & Hc & Hb).
  assert (Hrun : for_each (ts ++ [t]) (generate_profile host) st =
                 (Ok (render3 <$> (cs ++ [c])),
                  record_profile (render3 c1)
                    (fix_entries host t (name c1.1.2) (name c1.2) st1))).
  { rewrite for_each_snoc, Hrun1.
    rewrite (generate_profile_run host t st1 c1 Hc1) by (by rewrite Hfs1).
    assert (Hr : render3 c1 = render3 c) by (by apply render_sim).
    by rewrite fmap_app, Hr. }
  assert (Hcur : pool_list host Compilers st1 !! t.1.2 = Some c1.1.2).
  { unfold state_combination in Hc1.
    apply bind_Some in Hc1 as (o' & _ & Hc1).
    apply bind_Some in Hc1 as (c' & Hc' & Hc1).
    apply bind_Some in Hc1 as (b' & _ & Hc1). by injection Hc1 as <-. }
  eexists _, _, _. split; [exact Hrun|].
  split; [by apply fix_entries_compiler|].
  split.
  { rewrite (sim_name _ _ Hc), (sim_name _ _ Hb), (Hc _ _).
    by apply settings_of_with_runtime. }
  split; [done|].
  apply Forall2_fmap_r, Forall_Forall2_diag, Forall_forall.
  intros [[o' c'] b'] Hin Hvs'. cbn [fst snd] in *.
  assert (Hcomb : ∃ t', combination pl (build_types st) t' = Some (o', c', b')).
  { apply list_elem_of_lookup in Hin as [i Hi].
    destruct (Forall2_lookup_r _ _ _ _ _ Hall Hi) as (t' & _ & Ht'). by exists t'. }
  destruct Hcomb as (t' & Ht'). unfold combination in Ht'.
  apply bind_Some in Ht' as (o2 & _ & Ht').
  apply bind_Some in Ht' as (c2 & Hc2 & Ht').
  apply bind_Some in Ht' as (b2 & Hb2 & Ht'). injection Ht' as -> -> ->.
  apply list_elem_of_lookup_2 in Hc2, Hb2.
  apply (proj1 (Forall_forall _ _) Hcs) in Hc2.
  apply (proj1 (Forall_forall _ _) Hbs) in Hb2 as [Hb2 Hrt].
  unfold render3. cbn [fst snd]. by apply render_runtime.
Qed.

(** The permutations of Windows in reverse: release, then debug. *)
Lemma C10_witness :
  ∃ rs st' c',
    for_each [(0, 0, 1); (0, 0, 0)] (generate_profile "Windows")
      (boot "/home/user/.conan/profiles" (Some ∅) []) = (Ok rs, st') ∧
    pool_list "Windows" Compilers st' !! 0 = Some c' ∧
    settings c' = Some [("compiler", "Visual Studio"); ("compiler.version", "16");
                        ("compiler.runtime", "MTd")] ∧
    (dict_get "compiler.runtime" ∘ profile_settings) <$> rs = [Some "MT"; Some "MTd"].
Proof.
  assert (Hall : Forall2 (λ t c, combination Windows BUILD_TYPES t = Some c)
            ([(0, 0, 1)] ++ [(0, 0, 0)])
            ([(windows_x86_64, msvc_mt, release)] ++ [(windows_x86_64, msvc_mt, debug)])).
  { by repeat constructor. }
  assert (Hvs : visual_studio msvc_mt) by reflexivity.
  assert (Hcs : Forall (λ e, NoDup (keys (settings_of e))) (compilers Windows)).
  { apply (bool_decide_unpack _). by vm_compute. }
  assert (Hbs : Forall (λ e, ¬ visual_studio e ∧
                  dict_get "compiler.runtime" (settings_of e) = None) BUILD_TYPES).
  { apply (bool_decide_unpack _). by vm_compute. }
  destruct (C10_runtime_written_to_table "Windows" Windows
              (boot "/home/user/.conan/profiles" (Some ∅) [])
              [(0, 0, 1)] (0, 0, 0)
              [(windows_x86_64, msvc_mt, release)] (windows_x86_64, msvc_mt, debug)
              eq_refl (mk_is_Some _ _ eq_refl) Hall Hvs Hcs Hbs)
    as (rs & st' & c' & Hrun & Hc' & Hset & Hrs & _).
  exists rs, st', c'. split; [exact Hrun|]. split; [exact Hc'|].
  split; [exact Hset|]. rewrite Hrs. reflexivity.
Defined.

(** ** Further properties *)

(** X1.  The profiles directory after a run, name by name: a name that had
    a file keeps its text; a name that had none has the text of the first
    profile of the run with that name, and none when the run has no profile
    of that name. *)
Theorem X1_directory_after_run host pl st :
  host_settings st !! host = Some pl →
  ∃ rs st',
    profiles_of (Some host) st = (Ok rs, st') ∧
    Main (Some host) st = (Ok tt, st') ∧
    ∀ n, files st' !! n =
         match files st !! n with
         | Some text => Some text
         | None => profile_text <$> first_named n rs
         end.
Proof.
  intros Hpl.
  destruct (profiles_of_run host pl st Hpl) as (st' & Hrun & HMain & _ & Hfs & _).
  eexists _, st'. split_and!; [exact Hrun|exact HMain|].
  intros n. unfold files at 1. rewrite Hfs. cbn [default from_option id].
  apply foldl_write_if_absent_first.
Qed.

Lemma X1_witness :
  ∃ rs st',
    Main (Some "Linux")
         (boot "/home/user/.conan/profiles"
               (Some {["linux-x86_64-gcc-debug" := "kept"]}) []) = (Ok tt, st') ∧
    files st' !! "linux-x86_64-gcc-debug" = Some "kept" ∧
    files st' !! "linux-x86_64-gcc-release" =
      profile_text <$> first_named "linux-x86_64-gcc-release" rs ∧
    files st' !! "linux-x86_64-icc-release" = None.
Proof.
  destruct (X1_directory_after_run "Linux" Linux
              (boot "/home/user/.conan/profiles"
                    (Some {["linux-x86_64-gcc-debug" := "kept"]}) []) eq_refl)
    as (rs & st' & Hrun & HMain & Hfiles).
  exists rs, st'. split; [exact HMain|].
  rewrite !Hfiles. split; [reflexivity|]. split; [reflexivity|].
  vm_compute in Hrun. injection Hrun as <- _. reflexivity.
Defined.

(** X2.  Running the script again, in a fresh process with the same tables,
    over the directory and the registry that a run has left: the second run
    returns normally, writes no file, does not call [remote_add], and leaves
    the directory and the registry as they were. *)
Theorem X2_second_run_changes_nothing host pl st :
  host_settings st !! host = Some pl →
  let after1 := (Main (Some host) st).2 in
  let again := State (host_settings st) (build_types st) (profiles_path after1)
                     (profiles after1) (remotes after1) [] in
  let run2 := Main (Some host) again in
  run2.1 = Ok tt ∧
  writes (trace run2.2) = [] ∧
  (∀ n u, ConanRemoteAdd n u ∉ trace run2.2) ∧
  profiles run2.2 = profiles after1 ∧
  remotes run2.2 = remotes after1.
Proof.
  intros Hpl after1 again run2.
  destruct (profiles_of_run host pl st Hpl)
    as (st1 & _ & HMain1 & _ & Hfs1 & _ & Hrem1 & _).
  assert (Hafter1 : after1 = st1) by (subst after1; by rewrite HMain1).
  set (rs := render3 <$> product (os_arch pl) (compilers pl) (build_types st)) in *.
  assert (Hfiles : files again = foldl write_if_absent (files st) rs).
  { unfold files at 1. subst again. cbn [profiles]. by rewrite Hafter1, Hfs1. }
  assert (Hrems : remotes again = remotes_after (remotes st)).
  { subst again. cbn [remotes]. by rewrite Hafter1. }
  destruct (profiles_of_run host pl again Hpl)
    as (st2 & _ & HMain2 & _ & Hfs2 & Htr2 & Hrem2 & _).
  assert (Hrun2 : run2 = (Ok tt, st2)) by (subst run2; by rewrite HMain2).
  rewrite Hrun2. cbn [fst snd].
  change (build_types again) with (build_types st) in *. fold rs in Hfs2, Htr2.
  change (trace again) with (@nil event) in Htr2.
  change (profiles again) with (profiles after1).
  change (remotes again) with (remotes after1) in *.
  rewrite Hfiles in Hfs2, Htr2. rewrite Hafter1 in *.
  destruct (loop_events_present rs (foldl write_if_absent (files st) rs)
              (foldl_write_if_absent_present rs (files st))) as [Hwrites Hsame].
  assert (Hreg : registered (remotes st1))
    by (rewrite Hrem1; apply registered_remotes_after).
  split_and!.
  - done.
  - by rewrite Htr2, app_nil_l, writes_run_events.
  - intros n u. rewrite Htr2, app_nil_l, !elem_of_app.
    intros [Hin|[Hin|[Hin|Hin]]].
    + unfold setup_events in Hin. rewrite !elem_of_cons, elem_of_nil in Hin.
      by destruct Hin as [?|[?|[?|[]]]].
    + rewrite !elem_of_cons, elem_of_nil in Hin. by destruct Hin as [?|[?|[]]].
    + by apply remote_events_registered in Hin.
    + by apply loop_events_kinds in Hin as [[? ?]|(? & ? & ?)].
  - by rewrite Hfs2, Hsame, Hfs1.
  - by rewrite Hrem2, remotes_after_registered.
Qed.

Lemma X2_witness :
  let after1 := (Main (Some "Linux") (boot "/home/user/.conan/profiles" None [])).2 in
  let run2 := Main (Some "Linux")
                (boot "/home/user/.conan/profiles" (profiles after1) (remotes after1)) in
  run2.1 = Ok tt ∧ writes (trace run2.2) = [] ∧ remotes run2.2 = remotes after1.
Proof.
  destruct (X2_second_run_changes_nothing "Linux" Linux
              (boot "/home/user/.conan/profiles" None []) eq_refl)
    as (Hok & Hwrites & _ & _ & Hrem).
  split_and!; [exact Hok|exact Hwrites|exact Hrem].
Defined.

(** X3.  What a run changes in the tables.  The lists keep their lengths and
    every entry its name and its environment; an entry that is not Visual
    Studio is untouched, and a Visual Studio entry keeps the value of every
    key but ['compiler.runtime'].  The platforms under the other keys are
    untouched. *)
Theorem X3_tables_change_only_in_runtime host pl st :
  host_settings st !! host = Some pl →
  ∃ st',
    Main (Some host) st = (Ok tt, st') ∧
    (∀ p, Forall2 (λ e0 e,
              name e = name e0 ∧ env e = env e0 ∧
              (¬ visual_studio e0 → e = e0) ∧
              ∀ k, k ≠ "compiler.runtime" →
                   dict_get k (settings_of e) = dict_get k (settings_of e0))
            (pool_list host p st) (pool_list host p st')) ∧
    ∀ other, other ≠ host → host_settings st' !! other = host_settings st !! other.
Proof.
  intros Hpl.
  destruct (Main_tables host pl st Hpl) as (st' & HMain & Hsim & _ & Hother).
  exists st'. split; [done|]. split; [|done].
  intros p.
  assert (Hp : Forall2 sim (pool_list host p st) (pool_list host p st')).
  { pose proof (proj1 (tables_sim_pool host pl (build_types st) st') Hsim p) as H.
    destruct p; unfold pool0 in H; unfold pool_list at 1; rewrite ?Hpl; exact H. }
  eapply Forall2_impl; [exact Hp|]. intros e0 e He. split_and!.
  - by apply sim_name.
  - by apply sim_env.
  - by apply sim_other.
  - intros k Hk. by apply sim_dict_get.
Qed.

Lemma X3_witness :
  ∃ st',
    Main (Some "Windows") (boot "/home/user/.conan/profiles" None []) = (Ok tt, st') ∧
    name <$> pool_list "Windows" Compilers st' = ["msvc_mt"] ∧
    host_settings st' !! "Linux" = Some Linux.
Proof.
  destruct (X3_tables_change_only_in_runtime "Windows" Windows
              (boot "/home/user/.conan/profiles" None []) eq_refl)
    as (st' & HMain & Hpools & Hother).
  exists st'. split; [exact HMain|]. split.
  - specialize (Hpools Compilers).
    apply Forall2_cons_inv_l in Hpools as (e & l & (Hname & _) & Hnil & ->).
    apply Forall2_nil_inv_l in Hnil as ->. cbn [fmap list_fmap]. by rewrite Hname.
  - by rewrite Hother.
Defined.

(** X4.  A run for a platform none of whose variants, and none of whose
    build types, is Visual Studio leaves both tables exactly as they were. *)
Theorem X4_tables_unchanged_without_visual_studio host pl st :
  host_settings st !! host = Some pl →
  Forall (λ e, ¬ visual_studio e) (os_arch pl ++ compilers pl ++ build_types st) →
  ∃ st',
    Main (Some host) st = (Ok tt, st') ∧
    host_settings st' = host_settings st ∧
    build_types st' = build_types st.
Proof.
  intros Hpl Hall. rewrite !Forall_app in Hall. destruct Hall as (Hos & Hcs & Hbs).
  destruct (Main_tables host pl st Hpl)
    as (st' & HMain & (Hsos & Hscs & Hsbs) & [pl' Hpl'] & Hother).
  exists st'. split; [done|].
  unfold pool_list in Hsos, Hscs, Hsbs. rewrite Hpl' in Hsos, Hscs. simpl in Hsos, Hscs.
  apply Forall2_sim_eq in Hsos, Hscs, Hsbs; try done.
  split; [|done]. apply map_eq. intros key.
  destruct (decide (key = host)) as [->|Hne]; [|by apply Hother].
  rewrite Hpl, Hpl'. destruct pl, pl'. simpl in *. by subst.
Qed.

Lemma X4_witness :
  ∃ st',
    Main (Some "Linux") (boot "/home/user/.conan/profiles" None []) = (Ok tt, st') ∧
    host_settings st' = HOST_SETTINGS ∧ build_types st' = BUILD_TYPES.
Proof.
  assert (Hall : Forall (λ e, ¬ visual_studio e)
                   (os_arch Linux ++ compilers Linux ++ BUILD_TYPES)).
  { apply (bool_decide_unpack _). by vm_compute. }
  exact (X4_tables_unchanged_without_visual_studio "Linux" Linux
           (boot "/home/user/.conan/profiles" None []) eq_refl Hall).
Defined.

(** X5.  Take tables in which no key of a settings or environment mapping
    has [=] or a newline and no value has a newline.  Then every block of a
    run has one line per key of the merged mapping and no key on two lines:
    read back line by line, the settings block and the environment block of
    a profile give its merged settings and its merged environment, item by
    item, and the keys read are pairwise distinct. *)
Theorem X5_blocks_read_back host pl st :
  host_settings st !! host = Some pl →
  Forall readable_entry (os_arch pl ++ compilers pl ++ build_types st) →
  ∃ rs st',
    profiles_of (Some host) st = (Ok rs, st') ∧
    Forall (λ r,
      read_values (values_string (profile_settings r)) = profile_settings r ∧
      read_values (values_string (profile_env r)) = profile_env r ∧
      NoDup (keys (read_values (values_string (profile_settings r)))) ∧
      NoDup (keys (read_values (values_string (profile_env r))))) rs.
Proof.
  intros Hpl Hall.
  destruct (profiles_of_run host pl st Hpl) as (st' & Hrun & _).
  eexists _, st'. split; [exact Hrun|].
  apply Forall_fmap, Forall_forall. intros [[o c] b] Hin.
  apply elem_of_product in Hin as (Ho & Hc & Hb).
  rewrite !Forall_app in Hall. destruct Hall as (Hos & Hcs & Hbs).
  destruct (readable_render o c b) as [Hs He];
    [exact (proj1 (Forall_forall _ _) Hos o Ho)
    |exact (proj1 (Forall_forall _ _) Hcs c Hc)
    |exact (proj1 (Forall_forall _ _) Hbs b Hb)|].
  cbn [compose render3 fst snd].
  rewrite !read_values_string by done.
  split_and!; [done|done|apply NoDup_keys_merge3|apply NoDup_keys_merge3].
Qed.

Lemma X5_witness :
  ∃ rs st',
    profiles_of (Some "Windows") (boot "/home/user/.conan/profiles" None [])
      = (Ok rs, st') ∧
    (keys ∘ read_values ∘ values_string ∘ profile_settings) <$> rs !! 0 =
      Some ["os"; "os_build"; "arch"; "arch_build"; "compiler"; "compiler.version";
            "compiler.runtime"; "build_type"] ∧
    Forall (λ r, read_values (values_string (profile_settings r)) = profile_settings r) rs.
Proof.
  assert (Hall : Forall readable_entry
                   (os_arch Windows ++ compilers Windows ++ BUILD_TYPES)).
  { apply (bool_decide_unpack _). by vm_compute. }
  destruct (X5_blocks_read_back "Windows" Windows
              (boot "/home/user/.conan/profiles" None []) eq_refl Hall)
    as (rs & st' & Hrun & Hrs).
  exists rs, st'. split; [exact Hrun|]. split.
  - vm_compute in Hrun. injection Hrun as <- _. reflexivity.
  - eapply Forall_impl; [exact Hrs|]. by intros r [? _].
Defined.

(** X6.  The exit status of the script is 0 only when the help was asked
    for or the platform given is a key of the table.  It is the status with
    which the parser leaves, 0 for the help and 2 for an error, when the
    parser does not accept the command line; and it is 1 when the parser
    accepts the command line and the platform is missing or is not a
    key. *)
Theorem X6_exit_status sys_argv args st :
  command_line sys_argv = Some args →
  let status := exit_status (script args st).1 in
  (status = 0 →
   parse_args args = Raise (SystemExit 0) ∨
   ∃ key, parse_args args = Ok (Some key) ∧ is_Some (host_settings st !! key)) ∧
  (∀ e, parse_args args = Raise e →
        (e = SystemExit 0 ∧ status = 0) ∨ (e = SystemExit 2 ∧ status = 2)) ∧
  (∀ host_platform, parse_args args = Ok host_platform →
                    ¬ known host_platform st → status = 1).
Proof.
  intros _ status. subst status. rewrite script_run.
  destruct (parse_args args) as [host_platform|e] eqn:Hparse.
  - split_and!; [|done|].
    + intros Hexit. right.
      destruct (known_dec host_platform st) as [(key & -> & Hkey)|Hno].
      * by exists key.
      * destruct (profiles_of_unknown host_platform st Hno) as [_ HMain].
        by rewrite HMain in Hexit.
    + intros ? [= <-] Hno.
      destruct (profiles_of_unknown host_platform st Hno) as [_ HMain].
      by rewrite HMain.
  - destruct (parse_args_exit args e Hparse) as [-> | ->].
    + split_and!; [by left| |done]. intros ? [= <-]. by left.
    + split_and!; [done| |done]. intros ? [= <-]. by right.
Qed.

Lemma X6_witness :
  command_line ["-p"; "Linux"] = Some [PlatformOption; Plain "Linux"] ∧
  exit_status (script [PlatformOption; Plain "Linux"]
                 (boot "/home/user/.conan/profiles" None [])).1 = 0 ∧
  parse_args [PlatformOption; Plain "Linux"] = Ok (Some "Linux").
Proof.
  pose proof (X6_exit_status ["-p"; "Linux"] [PlatformOption; Plain "Linux"]
                (boot "/home/user/.conan/profiles" None []) eq_refl) as (H0 & _ & _).
  split; [reflexivity|]. split; [by vm_compute|].
  destruct H0 as [Hhelp|(key & Hkey & _)]; [by vm_compute|discriminate Hhelp|].
  reflexivity.
Defined.

(** X8.  The environment of an os/arch variant and of a build type, when
    they have one, are merged too: in tables whose environments have no key
    twice, the merged environment of a permutation is the ordered union of
    the three environments, os/arch then compiler then build type, so that
    the value of a key is that of the last of the three that has it. *)
Theorem X8_environment_of_all_three host pl st :
  host_settings st !! host = Some pl →
  Forall (λ e, NoDup (keys (env_of e))) (os_arch pl ++ compilers pl ++ build_types st) →
  ∃ rs st',
    profiles_of (Some host) st = (Ok rs, st') ∧
    Forall2 (λ c r,
        profile_env r = override (override (env_of c.1.1) (env_of c.1.2)) (env_of c.2) ∧
        ∀ k, dict_get k (profile_env r) =
             match dict_get k (env_of c.2) with
             | Some v => Some v
             | None => match dict_get k (env_of c.1.2) with
                       | Some v => Some v
                       | None => dict_get k (env_of c.1.1)
                       end
             end)
      (product (os_arch pl) (compilers pl) (build_types st)) rs.
Proof.
  intros Hpl Huniq. rewrite !Forall_app in Huniq. destruct Huniq as (Huo & Huc & Hub).
  destruct (profiles_of_run host pl st Hpl) as (st' & Hrun & _).
  eexists _, st'. split; [exact Hrun|].
  apply Forall2_product_render. intros o c b Ho Hc Hb. cbn [fst snd].
  apply (proj1 (Forall_forall _ _) Huo) in Ho.
  apply (proj1 (Forall_forall _ _) Huc) in Hc.
  apply (proj1 (Forall_forall _ _) Hub) in Hb.
  unfold render. cbn [profile_env]. split.
  - by apply merge3_override.
  - intros k. rewrite dict_get_merge3 by done. by rewrite dict_get_reverse.
Qed.

Lemma X8_witness :
  let cross := Entry "linux-arm" (Some [("os", "Linux"); ("arch", "armv8")])
                     (Some [("CC", "cc"); ("SYSROOT", "/opt/sysroot")]) in
  let st := State {["Linux" := Platform [cross] [gcc]]} BUILD_TYPES
                  "/home/user/.conan/profiles" None [] [] in
  ∃ rs st',
    profiles_of (Some "Linux") st = (Ok rs, st') ∧
    profile_env <$> rs !! 0 =
      Some [("CC", "gcc-10"); ("SYSROOT", "/opt/sysroot"); ("CXX", "g++-10");
            ("AR", "gcc-ar-10"); ("NM", "gcc-nm-10")].
Proof.
  intros cross st.
  assert (Huniq : Forall (λ e, NoDup (keys (env_of e))) ([cross] ++ [gcc] ++ BUILD_TYPES)).
  { apply (bool_decide_unpack _). by vm_compute. }
  destruct (X8_environment_of_all_three "Linux" (Platform [cross] [gcc]) st eq_refl Huniq)
    as (rs & st' & Hrun & Hall).
  exists rs, st'. split; [exact Hrun|].
  apply Forall2_cons_inv_l in Hall as (r & rs' & (Henv & _) & _ & ->).
  cbn [lookup list_lookup fmap option_fmap option_map]. by rewrite Henv.
Defined.

(** X9.  A platform with no os/arch variant or no compiler variant, or
    tables with no build type, have no permutation: the run returns
    normally, has made the directory and registered the remote, and writes
    no file. *)
Theorem X9_no_permutation host pl st :
  host_settings st !! host = Some pl →
  os_arch pl = [] ∨ compilers pl = [] ∨ build_types st = [] →
  ∃ st',
    profiles_of (Some host) st = (Ok [], st') ∧
    Main (Some host) st = (Ok tt, st') ∧
    profiles st' = Some (files st) ∧
    (∃ x, x ∈ remotes st' ∧ remote_name x = REMOTE) ∧
    writes (drop (length (trace st)) (trace st')) = [].
Proof.
  intros Hpl Hnil.
  destruct (profiles_of_run host pl st Hpl)
    as (st' & Hrun & HMain & _ & Hfs & Htr & Hrem & _).
  rewrite (product_nil _ _ _ Hnil) in Hrun, Hfs, Htr.
  exists st'. split_and!; [exact Hrun|exact HMain|exact Hfs| |].
  - rewrite Hrem. apply registered_remotes_after.
  - by rewrite Htr, drop_app_length, writes_run_events.
Qed.

Lemma X9_witness :
  let st := State {["Linux" := Platform [linux_x86_64] []]} BUILD_TYPES
                  "/home/user/.conan/profiles" None [] [] in
  ∃ st',
    Main (Some "Linux") st = (Ok tt, st') ∧
    profiles st' = Some ∅ ∧
    remotes st' = [Remote REMOTE REMOTE_URL].
Proof.
  intros st.
  destruct (X9_no_permutation "Linux" (Platform [linux_x86_64] []) st eq_refl
              (or_intror (or_introl eq_refl)))
    as (st' & _ & HMain & Hdir & _).
  exists st'. split; [exact HMain|]. split; [exact Hdir|].
  vm_compute in HMain. by injection HMain as <-.
Defined.

(** X10.  The order of the effects of a run for a platform of the table.
    Making the directory, setting up the client and registering the remote
    all come before the loop: what precedes the loop writes no file, and the
    loop only prints and writes files. *)
Theorem X10_setup_before_profiles host pl st :
  host_settings st !! host = Some pl →
  ∃ st' early late,
    Main (Some host) st = (Ok tt, st') ∧
    trace st' = trace st ++ early ++ late ∧
    writes early = [] ∧
    MakeDirs (profiles_path st) ∈ early ∧
    ConanRemoteList ∈ early ∧
    (ConanRemoteAdd REMOTE REMOTE_URL ∈ early ↔
       ¬ ∃ x, x ∈ remotes st ∧ remote_name x = REMOTE) ∧
    ∀ ev, ev ∈ late → (∃ line, ev = Print line) ∨ (∃ f t, ev = WriteFile f t).
Proof.
  intros Hpl.
  destruct (profiles_of_run host pl st Hpl) as (st' & _ & HMain & _ & _ & Htr & _).
  exists st', (setup_events (Some host) (profiles_path st) ++
               [ConanFactory; ConanCreateApp] ++ remote_events (remotes st)),
    (loop_events (files st)
       (render3 <$> product (os_arch pl) (compilers pl) (build_types st))).
  split_and!.
  - exact HMain.
  - by rewrite Htr, <-!app_assoc.
  - by rewrite !writes_app, writes_setup_events, writes_remote_events.
  - apply elem_of_app. left. unfold setup_events. rewrite !elem_of_cons. auto.
  - rewrite !elem_of_app. right. right. unfold remote_events. apply elem_of_cons. by left.
  - rewrite !elem_of_app. split.
    + intros [Hin|[Hin|Hin]].
      * unfold setup_events in Hin. rewrite !elem_of_cons, elem_of_nil in Hin.
        by destruct Hin as [?|[?|[?|[]]]].
      * rewrite !elem_of_cons, elem_of_nil in Hin. by destruct Hin as [?|[?|[]]].
      * by apply remote_add_remote_events in Hin as (_ & _ & ?).
    + intros Hno. right. right. by apply remote_add_remote_events.
  - intros ev. apply loop_events_kinds.
Qed.

Lemma X10_witness :
  ∃ st' early late,
    Main (Some "Windows") (boot "/home/user/.conan/profiles" None []) = (Ok tt, st') ∧
    trace st' = [] ++ early ++ late ∧
    writes early = [] ∧
    ConanRemoteAdd REMOTE REMOTE_URL ∈ early.
Proof.
  destruct (X10_setup_before_profiles "Windows" Windows
              (boot "/home/user/.conan/profiles" None []) eq_refl)
    as (st' & early & late & HMain & Htr & Hw & _ & _ & Hadd & _).
  exists st', early, late. split; [exact HMain|]. split; [exact Htr|].
  split; [exact Hw|]. apply Hadd. intros (x & Hx & _). by apply elem_of_nil in Hx.
Defined.

(** X11.  Take any tables whose entries have names that can be file
    names: short, and made of lowercase letters, digits, [_] and [-].  A
    run renders one profile per element of the Cartesian product, writes
    each file name at most once, and so writes at most as many files as
    there are permutations. *)
Theorem X11_each_name_written_once host pl st :
  host_settings st !! host = Some pl →
  plain_names (os_arch pl ++ compilers pl ++ build_types st) →
  ∃ rs st',
    profiles_of (Some host) st = (Ok rs, st') ∧
    length rs = length (os_arch pl) * length (compilers pl) * length (build_types st) ∧
    NoDup (writes (drop (length (trace st)) (trace st'))).*1 ∧
    length (writes (drop (length (trace st)) (trace st'))) ≤ length rs.
Proof.
  intros Hpl _.
  destruct (profiles_of_run host pl st Hpl) as (st' & Hrun & _ & _ & _ & Htr & _).
  eexists _, st'. split; [exact Hrun|].
  rewrite Htr, drop_app_length, writes_run_events. split_and!.
  - rewrite length_fmap. apply length_product.
  - apply writes_loop_events_NoDup.
  - apply length_writes_loop_events.
Qed.

Lemma X11_witness :
  let same := Entry "x86_64" (Some [("arch", "x86_64")]) None in
  let st := State {["Linux" := Platform [same; same] [gcc]]} BUILD_TYPES
                  "/home/user/.conan/profiles" None [] [] in
  ∃ rs st',
    profiles_of (Some "Linux") st = (Ok rs, st') ∧
    length rs = 4 ∧
    (writes (trace st')).*1 = ["x86_64-gcc-debug"; "x86_64-gcc-release"].
Proof.
  intros same st.
  assert (Hnames : plain_names ([same; same] ++ [gcc] ++ BUILD_TYPES)).
  { apply (bool_decide_unpack _). by vm_compute. }
  destruct (X11_each_name_written_once "Linux" (Platform [same; same] [gcc]) st
              eq_refl Hnames)
    as (rs & st' & Hrun & Hlen & _).
  exists rs, st'. split; [exact Hrun|]. split; [exact Hlen|].
  vm_compute in Hrun. by injection Hrun as _ <-.
Defined.

(** X12.  [values_string] loses nothing: two mappings in which no key has
    [=] or a newline and no value has a newline, and which are rendered to
    the same text, are the same mapping, items in the same order.  A value
    may hold [=]. *)
Theorem X12_values_string_injective d1 d2 :
  readable d1 → readable d2 →
  values_string d1 = values_string d2 → d1 = d2.
Proof.
  intros H1 H2 Heq.
  by rewrite <-(read_values_string d1 H1), <-(read_values_string d2 H2), Heq.
Qed.

Lemma X12_witness :
  read_values (values_string [("CXX", "g++-10"); ("CXXFLAGS", "-DMODE=debug")])
    = [("CXX", "g++-10"); ("CXXFLAGS", "-DMODE=debug")] ∧
  ∀ d, readable d →
       values_string d = values_string [("CXX", "g++-10"); ("CXXFLAGS", "-DMODE=debug")] →
       d = [("CXX", "g++-10"); ("CXXFLAGS", "-DMODE=debug")].
Proof.
  assert (H : readable [("CXX", "g++-10"); ("CXXFLAGS", "-DMODE=debug")]).
  { by repeat constructor. }
  split; [reflexivity|]. intros d Hd Heq.
  exact (X12_values_string_injective d _ Hd H Heq).
Defined.

(** X13.  The permutations are handled with the build type varying
    fastest, then the compiler variant, then the os/arch variant: the
    profile of the os/arch variant at position [i], the compiler variant at
    [j] and the build type at [k] is the one rendered at position
    [(i * |compilers| + j) * |build types| + k] of the loop. *)
Theorem X13_order_of_permutations host pl st i j k o c b :
  host_settings st !! host = Some pl →
  os_arch pl !! i = Some o →
  compilers pl !! j = Some c →
  build_types st !! k = Some b →
  ∃ rs st',
    profiles_of (Some host) st = (Ok rs, st') ∧
    rs !! ((i * length (compilers pl) + j) * length (build_types st) + k)
      = Some (render o c b).
Proof.
  intros Hpl Ho Hc Hb.
  destruct (profiles_of_run host pl st Hpl) as (st' & Hrun & _).
  eexists _, st'. split; [exact Hrun|].
  by rewrite list_lookup_fmap, (product_lookup _ _ _ i j k o c b).
Qed.

Lemma X13_witness :
  ∃ rs st',
    profiles_of (Some "Linux") (boot "/home/user/.conan/profiles" None []) = (Ok rs, st') ∧
    profile_name <$> rs !! 2 = Some "linux-x86_64-gcc-debug".
Proof.
  destruct (X13_order_of_permutations "Linux" Linux
              (boot "/home/user/.conan/profiles" None []) 0 1 0 linux_x86_64 gcc debug
              eq_refl eq_refl eq_refl eq_refl)
    as (rs & st' & Hrun & Hat).
  exists rs, st'. split; [exact Hrun|].
  change ((0 * length (compilers Linux) + 1) *
          length (build_types (boot "/home/user/.conan/profiles" None [])) + 0)
    with 2 in Hat.
  by rewrite Hat.
Defined.

(** X14.  Take any tables whose entries have names that can be file
    names: short, and made of lowercase letters, digits, [_] and [-].  When
    the names of the permutations are pairwise distinct and none of them
    has a file, the run writes one file per permutation, in the order of
    the product, each with the text of its profile. *)
Theorem X14_all_written_when_distinct host pl st :
  host_settings st !! host = Some pl →
  plain_names (os_arch pl ++ compilers pl ++ build_types st) →
  let combos := product (os_arch pl) (compilers pl) (build_types st) in
  NoDup ((λ c, combination_name c.1.1 c.1.2 c.2) <$> combos) →
  Forall (λ c, files st !! combination_name c.1.1 c.1.2 c.2 = None) combos →
  ∃ rs st',
    profiles_of (Some host) st = (Ok rs, st') ∧
    Main (Some host) st = (Ok tt, st') ∧
    writes (drop (length (trace st)) (trace st')) =
      (λ r, (profile_name r, profile_text r)) <$> rs ∧
    ∀ r, r ∈ rs → files st' !! profile_name r = Some (profile_text r).
Proof.
  intros Hpl _ combos Hnd Habs.
  destruct (profiles_of_run host pl st Hpl)
    as (st' & Hrun & HMain & _ & Hfs & Htr & _).
  fold combos in Hrun, Hfs, Htr.
  assert (Hnd' : NoDup (profile_name <$> (render3 <$> combos))).
  { rewrite <-list_fmap_compose. exact Hnd. }
  eexists _, st'. split_and!; [exact Hrun|exact HMain| |].
  - rewrite Htr, drop_app_length, writes_run_events.
    apply writes_loop_events_fresh; [done|].
    apply Forall_fmap. exact Habs.
  - intros r Hr. unfold files at 1. rewrite Hfs. cbn [default from_option id].
    rewrite foldl_write_if_absent_first.
    apply list_elem_of_fmap in Hr as (c & -> & Hc).
    assert (Hnone : files st !! profile_name (render3 c) = None)
      by exact (proj1 (Forall_forall _ _) Habs c Hc).
    rewrite Hnone.
    assert (Hfirst : first_named (profile_name (render3 c)) (render3 <$> combos)
                     = Some (render3 c)).
    { clear -Hnd' Hc. induction combos as [|c0 cs IH]; [by apply elem_of_nil in Hc|].
      rewrite fmap_cons, first_named_cons. rewrite !fmap_cons in Hnd'.
      apply NoDup_cons in Hnd' as [Hc0 Hnd'].
      apply elem_of_cons in Hc as [->|Hc]; [by rewrite decide_True|].
      rewrite decide_False; [by apply IH|].
      intros Heq. apply Hc0. rewrite Heq.
      by apply list_elem_of_fmap_2, list_elem_of_fmap_2. }
    by rewrite Hfirst.
Qed.

Lemma X14_witness :
  ∃ rs st',
    Main (Some "Linux") (boot "/home/user/.conan/profiles" None []) = (Ok tt, st') ∧
    (writes (trace st')).*1 = profile_name <$> rs ∧
    length rs = 4.
Proof.
  assert (Hnd : NoDup ((λ c, combination_name c.1.1 c.1.2 c.2) <$>
                       product (os_arch Linux) (compilers Linux) BUILD_TYPES)).
  { apply (bool_decide_unpack _). by vm_compute. }
  assert (Habs : Forall (λ c, files (boot "/home/user/.conan/profiles" None [])
                                !! combination_name c.1.1 c.1.2 c.2 = None)
                   (product (os_arch Linux) (compilers Linux) BUILD_TYPES)).
  { apply Forall_forall. intros c _. apply lookup_empty. }
  assert (Hnames : plain_names (os_arch Linux ++ compilers Linux ++ BUILD_TYPES)).
  { apply (bool_decide_unpack _). by vm_compute. }
  destruct (X14_all_written_when_distinct "Linux" Linux
              (boot "/home/user/.conan/profiles" None []) eq_refl Hnames Hnd Habs)
    as (rs & st' & Hrun & HMain & Hw & _).
  exists rs, st'. split; [exact HMain|].
  change (drop (length (trace (boot "/home/user/.conan/profiles" None []))) (trace st'))
    with (trace st') in Hw.
  rewrite Hw, <-list_fmap_compose. split; [reflexivity|].
  vm_compute in Hrun. by injection Hrun as <- _.
Defined.
